(** * Branch-policy and agent-pool resource handlers

    A shallow embedding of [azuredevops/crud/branchpolicy/crud_branch_policy.go]
    (the generic policy resource factory with its settings codec, and the
    agent-pool resource) together with the pieces of the Go runtime the
    handlers call: [strings], [strconv], [fmt] and [encoding/json].

    Go strings are byte sequences: they are [string]s whose [ascii] characters
    are the bytes.  [int] is the 64-bit integer of the platforms the provider
    is built for, carried in [Z] with its range checked where the code checks
    it.  A pointer that may be nil is an [option]. *)

From Stdlib Require Import ZArith Ascii String List Lia DecimalString.
From Stdlib Require DecimalPos.
From stdpp Require Import base option list gmap strings sorting.

#[local] Set Warnings "-register-all".
#[local] Open Scope Z_scope.

(** ** Bytes *)

Definition code (c : ascii) : Z := Z.of_N (N_of_ascii c).
Definition chr (z : Z) : ascii := ascii_of_N (Z.to_N z).

Definition between (lo hi : Z) (c : ascii) : bool :=
  (lo <=? code c) && (code c <=? hi).

Definition is_digit (c : ascii) : bool := between 48 57 c.
Definition is_upper (c : ascii) : bool := between 65 90 c.

Definition to_lower (c : ascii) : ascii :=
  if is_upper c then chr (code c + 32) else c.

(** Reversal of an accumulator of bytes into the string it spells. *)
Fixpoint rev_onto (acc : string) (s : string) : string :=
  match acc with
  | EmptyString => s
  | String c acc' => rev_onto acc' (String c s)
  end.

Definition unrev (acc : string) : string := rev_onto acc "".

(** ** Package [strings] *)

Module GoStrings.

(** [cut s sep] is the split of [s] around the first byte [sep]: the text
    before it and the text after it, or [None] when [sep] does not occur. *)
Fixpoint cut (s : string) (sep : ascii) : option (string * string) :=
  match s with
  | EmptyString => None
  | String c rest =>
      if Ascii.eqb c sep then Some ("", rest)
      else match cut rest sep with
           | Some (before, after) => Some (String c before, after)
           | None => None
           end
  end.

(** [strings.SplitN(s, sep, 2)] for a one-byte separator: at most two
    parts, split at the first separator; the whole string alone when the
    separator does not occur. *)
Definition SplitN2 (s : string) (sep : ascii) : list string :=
  match cut s sep with
  | Some (before, after) => [before; after]
  | None => [s]
  end.

(** [strings.EqualFold(s, "")]: nothing but the empty string is equal to
    the empty string under case folding. *)
Definition EqualFoldEmpty (s : string) : bool :=
  match s with
  | EmptyString => true
  | String _ _ => false
  end.

End GoStrings.

(** ** Package [strconv] *)

Module Strconv.

Definition maxUint64 : Z := 2 ^ 64 - 1.

(** [strconv.Itoa]: the decimal text of an integer, with a leading minus
    sign for a negative one. *)
Definition Itoa (n : Z) : string := NilZero.string_of_int (Z.to_int n).

Inductive numErr := ErrSyntax | ErrRange.

(** [*strconv.NumError]: the failed function, the text it was given and
    the reason. *)
Record NumError := { Func : string; Num : string; Err : numErr }.

Definition digit (c : ascii) : option Z :=
  if is_digit c then Some (code c - 48) else None.

(** The loop of [ParseUint(s, 10, 64)]: the digits are accumulated in [n];
    a byte that is no decimal digit is a syntax error, and the first digit
    that takes the value past 64 bits is a range error, reported at once
    with the largest value. *)
Fixpoint parseUintLoop (s : string) (n : Z) : Z * option numErr :=
  match s with
  | EmptyString => (n, None)
  | String c rest =>
      match digit c with
      | None => (0, Some ErrSyntax)
      | Some d =>
          if maxUint64 / 10 + 1 <=? n then (maxUint64, Some ErrRange)
          else
            let n1 := n * 10 + d in
            if maxUint64 <? n1 then (maxUint64, Some ErrRange)
            else parseUintLoop rest n1
      end
  end.

Definition ParseUint (s : string) : Z * option numErr :=
  match s with
  | EmptyString => (0, Some ErrSyntax)
  | String _ _ => parseUintLoop s 0
  end.

(** [ParseInt(s, 10, 0)]: an optional sign, then [ParseUint]; the value
    is then checked against the range of [int]. *)
Definition ParseInt (s : string) : Z * option numErr :=
  match s with
  | EmptyString => (0, Some ErrSyntax)
  | String c rest =>
      let neg := Ascii.eqb c "-" in
      let body := if Ascii.eqb c "+" || neg then rest else s in
      let '(un, err) := ParseUint body in
      match err with
      | Some ErrSyntax => (0, Some ErrSyntax)
      | _ =>
          let cutoff := 2 ^ 63 in
          if negb neg && (cutoff <=? un) then (cutoff - 1, Some ErrRange)
          else if neg && (cutoff <? un) then (- cutoff, Some ErrRange)
          else (if neg then - un else un, None)
      end
  end.

(** [strconv.Atoi].  Its fast path for short inputs computes what
    [ParseInt] computes; the error names [Atoi] and the input. *)
Definition Atoi (s : string) : Z * option NumError :=
  let '(n, err) := ParseInt s in
  (n, (fun e => {| Func := "Atoi"; Num := s; Err := e |}) <$> err).

Definition numErrText (e : numErr) : string :=
  match e with
  | ErrSyntax => "invalid syntax"
  | ErrRange => "value out of range"
  end.

Section NumErrorText.

(** [strconv.Quote], the Go-syntax quoting of a string, is left open: the
    handlers only pass its result on inside their messages. *)
Variable Quote : string → string.

(** The [Error()] text of a [*NumError]. *)
Definition NumErrorText (e : NumError) : string :=
  "strconv." +:+ Func e +:+ ": parsing " +:+ Quote (Num e) +:+ ": "
  +:+ numErrText (Err e).

End NumErrorText.

End Strconv.

(** ** Go values and errors *)

(** The dynamic values ([interface{}]) that move between the attribute
    store and the remote payloads: nil, booleans, integers, strings, slices
    ([[]interface{}]) and string-keyed maps ([map[string]interface{}]).
    These are the values the handlers build and take apart; the other Go
    types (floating-point numbers, structs) have no constructor here. *)
Inductive value :=
| VNil
| VBool (b : bool)
| VInt (n : Z)
| VString (s : string)
| VSlice (l : list value)
| VMap (m : gmap string value).

(** Indexing a map with a key it does not hold gives the zero value of
    [interface{}], nil. *)
Definition mapIndex (m : gmap string value) (k : string) : value :=
  default VNil (m !! k).

(** A Go [error] value: its [Error()] text, and whether the remote client
    tagged it as the "not found" condition. *)
Record goerror := { Error : string; NotFound : bool }.

(** ** Package [fmt] *)

Module Fmt.

(** [fmt.Errorf] builds an error that carries the formatted text only. *)
Definition Errorf (msg : string) : goerror :=
  {| Error := msg; NotFound := false |}.

Definition joinSpace (l : list string) : string := String.concat " " l.

Definition key_le (a b : string * string) : Prop :=
  Is_true (String.leb a.1 b.1).

(** The [%v] verb.  A string prints as it is, nil as [<nil>], a slice as
    [[a b]], and a map as [map[k:v k:v]] with its keys in increasing
    order. *)
Fixpoint Sprintf_v (v : value) : string :=
  match v with
  | VNil => "<nil>"
  | VBool b => if b then "true" else "false"
  | VInt n => Strconv.Itoa n
  | VString s => s
  | VSlice l => "[" +:+ joinSpace (Sprintf_v <$> l) +:+ "]"
  | VMap m =>
      "map[" +:+
      joinSpace ((λ kv, kv.1 +:+ ":" +:+ kv.2) <$>
                 merge_sort key_le (map_to_list (Sprintf_v <$> m)))
      +:+ "]"
  end.

End Fmt.

(** ** Package [encoding/json]

    The scanner reads a text byte by byte and the parser keeps the open
    arrays and objects on a stack, as the scanner of [encoding/json] does;
    both are total, and together they accept the JSON grammar.  The bytes
    of a string literal are kept as they are and its escapes are decoded
    ([encoding/json] moreover replaces ill-formed UTF-8 by U+FFFD, which is
    not done here). *)

Module Json.

Inductive token :=
| TLBrace | TRBrace | TLBrack | TRBrack | TColon | TComma
| TStr (s : string) | TNum (lit : string) | TTrue | TFalse | TNull.

(** The states of the scanner inside a number. *)
Inductive numstate :=
| NNeg | NZero | NInt | NDot | NFrac | NE | NESign | NExp.

Definition num_step (ns : numstate) (c : ascii) : option numstate :=
  let d := is_digit c in
  let nz := between 49 57 c in
  let e := Ascii.eqb c "e" || Ascii.eqb c "E" in
  match ns with
  | NNeg => if Ascii.eqb c "0" then Some NZero else if nz then Some NInt else None
  | NZero =>
      if Ascii.eqb c "." then Some NDot else if e then Some NE else None
  | NInt =>
      if d then Some NInt
      else if Ascii.eqb c "." then Some NDot else if e then Some NE else None
  | NDot => if d then Some NFrac else None
  | NFrac => if d then Some NFrac else if e then Some NE else None
  | NE =>
      if Ascii.eqb c "+" || Ascii.eqb c "-" then Some NESign
      else if d then Some NExp else None
  | NESign => if d then Some NExp else None
  | NExp => if d then Some NExp else None
  end.

Definition num_final (ns : numstate) : bool :=
  match ns with
  | NZero | NInt | NFrac | NExp => true
  | _ => false
  end.

(** The states of the scanner.  Accumulators hold the bytes read so far,
    last byte first; [hi] is a [\u] escape of a leading surrogate that
    waits for its trailing half. *)
Inductive lexstate :=
| LStart
| LStr (acc : string) (hi : option Z)
| LEsc (acc : string) (hi : option Z)
| LHex (acc : string) (hi : option Z) (need : nat) (cp : Z)
| LNum (acc : string) (ns : numstate)
| LLit (rest : string) (t : token).

Definition replacement : Z := 65533.

(** UTF-8 encoding of a code point onto a reversed accumulator. *)
Definition push_rune (cp : Z) (acc : string) : string :=
  if cp <? 128 then String (chr cp) acc
  else if cp <? 2048 then
    String (chr (128 + cp mod 64)) (String (chr (192 + cp / 64)) acc)
  else if cp <? 65536 then
    String (chr (128 + cp mod 64))
      (String (chr (128 + (cp / 64) mod 64))
         (String (chr (224 + cp / 4096)) acc))
  else
    String (chr (128 + cp mod 64))
      (String (chr (128 + (cp / 64) mod 64))
         (String (chr (128 + (cp / 4096) mod 64))
            (String (chr (240 + cp / 262144)) acc))).

Definition is_high (cp : Z) : bool := (55296 <=? cp) && (cp <? 56320).
Definition is_low (cp : Z) : bool := (56320 <=? cp) && (cp <? 57344).

(** A leading surrogate that found no trailing half becomes U+FFFD. *)
Definition flush (hi : option Z) (acc : string) : string :=
  match hi with
  | Some _ => push_rune replacement acc
  | None => acc
  end.

Definition hexval (c : ascii) : option Z :=
  if is_digit c then Some (code c - 48)
  else if between 97 102 c then Some (code c - 87)
  else if between 65 70 c then Some (code c - 55)
  else None.

Definition fresh_rune (cp : Z) (acc : string) : lexstate :=
  if is_high cp then LStr acc (Some cp)
  else if is_low cp then LStr (push_rune replacement acc) None
  else LStr (push_rune cp acc) None.

Definition end_escape (cp : Z) (acc : string) (hi : option Z) : lexstate :=
  match hi with
  | Some h =>
      if is_low cp
      then LStr (push_rune (65536 + (h - 55296) * 1024 + (cp - 56320)) acc) None
      else fresh_rune cp (push_rune replacement acc)
  | None => fresh_rune cp acc
  end.

Definition is_space (c : ascii) : bool :=
  Ascii.eqb c " " || (code c =? 9) || (code c =? 10) || (code c =? 13).

(** The scanner at the beginning of a token. *)
Definition start (c : ascii) : option (list token * lexstate) :=
  if is_space c then Some ([], LStart)
  else if Ascii.eqb c "{" then Some ([TLBrace], LStart)
  else if Ascii.eqb c "}" then Some ([TRBrace], LStart)
  else if Ascii.eqb c "[" then Some ([TLBrack], LStart)
  else if Ascii.eqb c "]" then Some ([TRBrack], LStart)
  else if Ascii.eqb c ":" then Some ([TColon], LStart)
  else if Ascii.eqb c "," then Some ([TComma], LStart)
  else if code c =? 34 then Some ([], LStr "" None)
  else if Ascii.eqb c "-" then Some ([], LNum (String c "") NNeg)
  else if Ascii.eqb c "0" then Some ([], LNum (String c "") NZero)
  else if between 49 57 c then Some ([], LNum (String c "") NInt)
  else if Ascii.eqb c "t" then Some ([], LLit "rue" TTrue)
  else if Ascii.eqb c "f" then Some ([], LLit "alse" TFalse)
  else if Ascii.eqb c "n" then Some ([], LLit "ull" TNull)
  else None.

Definition unescape (c : ascii) : option ascii :=
  if code c =? 34 then Some c
  else if Ascii.eqb c "\" then Some c
  else if Ascii.eqb c "/" then Some c
  else if Ascii.eqb c "b" then Some (chr 8)
  else if Ascii.eqb c "f" then Some (chr 12)
  else if Ascii.eqb c "n" then Some (chr 10)
  else if Ascii.eqb c "r" then Some (chr 13)
  else if Ascii.eqb c "t" then Some (chr 9)
  else None.

(** One byte of input: the tokens it completes and the next state, or
    [None] at a syntax error. *)
Definition lex_step (st : lexstate) (c : ascii)
  : option (list token * lexstate) :=
  match st with
  | LStart => start c
  | LStr acc hi =>
      if code c =? 34 then Some ([TStr (unrev (flush hi acc))], LStart)
      else if Ascii.eqb c "\" then Some ([], LEsc acc hi)
      else if code c <? 32 then None
      else Some ([], LStr (String c (flush hi acc)) None)
  | LEsc acc hi =>
      if Ascii.eqb c "u" then Some ([], LHex acc hi 4 0)
      else (λ b, ([], LStr (String b (flush hi acc)) None)) <$> unescape c
  | LHex acc hi need cp =>
      match hexval c with
      | None => None
      | Some h =>
          match need with
          | 0%nat | 1%nat => Some ([], end_escape (cp * 16 + h) acc hi)
          | S need' => Some ([], LHex acc hi need' (cp * 16 + h))
          end
      end
  | LNum acc ns =>
      match num_step ns c with
      | Some ns' => Some ([], LNum (String c acc) ns')
      | None =>
          if num_final ns then
            '(toks, st') ← start c; Some (TNum (unrev acc) :: toks, st')
          else None
      end
  | LLit rest t =>
      match rest with
      | EmptyString => None
      | String x EmptyString =>
          if Ascii.eqb c x then Some ([t], LStart) else None
      | String x rest' =>
          if Ascii.eqb c x then Some ([], LLit rest' t) else None
      end
  end.

Definition lex_end (st : lexstate) : option (list token) :=
  match st with
  | LStart => Some []
  | LNum acc ns => if num_final ns then Some [TNum (unrev acc)] else None
  | _ => None
  end.

Fixpoint lex (st : lexstate) (s : string) : option (list token) :=
  match s with
  | EmptyString => lex_end st
  | String c rest =>
      '(toks, st') ← lex_step st c;
      more ← lex st' rest;
      Some (toks ++ more)
  end.

(** The document tree of a JSON text.  The members of an object keep
    their order and their repetitions. *)
Inductive json :=
| JNull
| JBool (b : bool)
| JNumber (lit : string)
| JString (s : string)
| JArray (items : list json)
| JObject (members : list (string * json)).

(** The containers that are open while the parser reads their content,
    with what they hold so far, last item first. *)
Inductive frame :=
| FArr (items : list json)
| FObj (members : list (string * json))
| FObjVal (members : list (string * json)) (key : string).

Inductive pstate :=
| SValue
| SArrFirst
| SObjFirst
| SObjKey
| SColon (key : string)
| SAfter
| SDone (j : json).

(** A complete value goes into the innermost open container, or is the
    document when none is open. *)
Definition push_value (j : json) (stk : list frame)
  : option (pstate * list frame) :=
  match stk with
  | [] => Some (SDone j, [])
  | FArr items :: stk' => Some (SAfter, FArr (j :: items) :: stk')
  | FObjVal members key :: stk' =>
      Some (SAfter, FObj ((key, j) :: members) :: stk')
  | FObj _ :: _ => None
  end.

Definition begin_value (t : token) (stk : list frame)
  : option (pstate * list frame) :=
  match t with
  | TStr s => push_value (JString s) stk
  | TNum lit => push_value (JNumber lit) stk
  | TTrue => push_value (JBool true) stk
  | TFalse => push_value (JBool false) stk
  | TNull => push_value JNull stk
  | TLBrack => Some (SArrFirst, FArr [] :: stk)
  | TLBrace => Some (SObjFirst, FObj [] :: stk)
  | _ => None
  end.

Definition parse_step (st : pstate) (stk : list frame) (t : token)
  : option (pstate * list frame) :=
  match st, t, stk with
  | SValue, _, _ => begin_value t stk
  | SArrFirst, TRBrack, FArr _ :: stk' => push_value (JArray []) stk'
  | SArrFirst, _, _ => begin_value t stk
  | SObjFirst, TRBrace, FObj _ :: stk' => push_value (JObject []) stk'
  | SObjFirst, TStr key, _ => Some (SColon key, stk)
  | SObjKey, TStr key, _ => Some (SColon key, stk)
  | SColon key, TColon, FObj members :: stk' =>
      Some (SValue, FObjVal members key :: stk')
  | SAfter, TComma, FArr _ :: _ => Some (SValue, stk)
  | SAfter, TRBrack, FArr items :: stk' =>
      push_value (JArray (reverse items)) stk'
  | SAfter, TComma, FObj _ :: _ => Some (SObjKey, stk)
  | SAfter, TRBrace, FObj members :: stk' =>
      push_value (JObject (reverse members)) stk'
  | _, _, _ => None
  end.

Fixpoint parse_tokens (st : pstate) (stk : list frame) (ts : list token)
  : option json :=
  match ts with
  | [] => match st with SDone j => Some j | _ => None end
  | t :: ts' =>
      '(st', stk') ← parse_step st stk t;
      parse_tokens st' stk' ts'
  end.

(** The syntax check and the reading of a whole text: one value with
    blanks around it, or [None] at a syntax error. *)
Definition parse (data : string) : option json :=
  ts ← lex LStart data; parse_tokens SValue [] ts.

(** *** Decoding into [commonPolicySettings] *)

(** Key matching of struct fields: the fold that [encoding/json] applies
    to a key before it compares it with a field name made of ASCII
    letters.  Letters lose their case; the Kelvin sign (E2 84 AA) folds
    to [k] and the long s (C5 BF) to [s]. *)
Fixpoint fold_key (s : string) : string :=
  match s with
  | EmptyString => ""
  | String c rest =>
      match rest with
      | String c1 rest1 =>
          if (code c =? 197) && (code c1 =? 191)
          then String "s" (fold_key rest1)
          else
            match rest1 with
            | String c2 rest2 =>
                if (code c =? 226) && (code c1 =? 132) && (code c2 =? 170)
                then String "k" (fold_key rest2)
                else String (to_lower c) (fold_key rest)
            | EmptyString => String (to_lower c) (fold_key rest)
            end
      | EmptyString => String (to_lower c) ""
      end
  end.

Definition field_matches (name key : string) : bool :=
  String.eqb (fold_key name) (fold_key key).

End Json.

(** ** Panics *)

(** A Go call either returns or panics (a failed type assertion, a nil
    dereference, an index out of range). *)
Inductive outcome (A : Type) :=
| Returns (a : A)
| Panics (why : string).

Arguments Returns {A} a.
Arguments Panics {A} why.

#[global] Instance outcome_ret : MRet outcome := @Returns.
#[global] Instance outcome_bind : MBind outcome :=
  λ A B f m, match m with Returns a => f a | Panics why => Panics why end.
#[global] Instance outcome_fmap : FMap outcome :=
  λ A B f m, match m with Returns a => Returns (f a) | Panics why => Panics why end.

(** Type assertions [x.(T)] on [interface{}] values. *)
Definition asString (v : value) : outcome string :=
  match v with
  | VString s => Returns s
  | _ => Panics "interface conversion: interface {} is not string"
  end.

Definition asBool (v : value) : outcome bool :=
  match v with
  | VBool b => Returns b
  | _ => Panics "interface conversion: interface {} is not bool"
  end.

Definition asSlice (v : value) : outcome (list value) :=
  match v with
  | VSlice l => Returns l
  | _ => Panics "interface conversion: interface {} is not []interface {}"
  end.

Definition asMap (v : value) : outcome (gmap string value) :=
  match v with
  | VMap m => Returns m
  | _ => Panics "interface conversion: interface {} is not map[string]interface {}"
  end.

(** [*p] on a pointer. *)
Definition deref {A} (p : option A) : outcome A :=
  match p with
  | Some a => Returns a
  | None => Panics "invalid memory address or nil pointer dereference"
  end.

(** [l[i]] on a slice. *)
Definition index {A} (l : list A) (i : nat) : outcome A :=
  match l !! i with
  | Some a => Returns a
  | None => Panics "index out of range"
  end.

(** ** The host runtime: [schema.ResourceData] *)

Module Schema.

(** The attribute store of one resource instance: the string identifier
    slot and the attributes by name.  [Get] reads an attribute, [Set_]
    ([d.Set]) writes one, [SetId] writes the identifier and the empty
    identifier marks the resource as absent.  The handlers hold a pointer
    to the store and update it in place; here every update returns the
    store that follows.

    The store is the host runtime's.  Its typing of the attributes by the
    resource schema is not part of this model: [Set_] stores the value it
    is given, and [Get] gives nil for an attribute that was never written
    (the host gives the zero value of the attribute's type).  The
    statements below say which value is read where a handler asserts its
    type. *)
Record ResourceData := { rd_id : string; rd_attrs : gmap string value }.

Definition Id (d : ResourceData) : string := rd_id d.

Definition SetId (v : string) (d : ResourceData) : ResourceData :=
  {| rd_id := v; rd_attrs := rd_attrs d |}.

Definition Get (d : ResourceData) (key : string) : value :=
  mapIndex (rd_attrs d) key.

Definition Set_ (key : string) (v : value) (d : ResourceData) : ResourceData :=
  {| rd_id := rd_id d; rd_attrs := <[key := v]> (rd_attrs d) |}.

End Schema.

(** ** Packages [converter] and [utils] *)

Module Converter.

(** Modelled from the spec: package [utils/converter] is not among the
    sources.  [ToString] and [ToBool] read a pointer and fall back on the
    given default for nil (the flatten defaults); [Bool] and [String]
    return a pointer to their argument. *)
Definition ToString (p : option string) (dflt : string) : string :=
  default dflt p.

Definition ToBool (p : option bool) (dflt : bool) : bool := default dflt p.

Definition Bool (b : bool) : option bool := Some b.

Definition String (s : string) : option string := Some s.

End Converter.

Module Utils.

(** Modelled from the spec: package [utils] is not among the sources.
    The remote client returns either the entity or an error that is
    distinguishable as "not found"; [ResponseWasNotFound] is that test,
    false for a nil error. *)
Definition ResponseWasNotFound (err : option goerror) : bool :=
  match err with
  | Some e => NotFound e
  | None => false
  end.

End Utils.

(** ** Remote entities and clients *)

Definition UUID := string.

Module Policy.

Record PolicyTypeRef := { TypeId : option UUID }.

(** [policy.PolicyConfiguration], with the fields the handlers touch. *)
Record PolicyConfiguration := {
  Id : option Z;
  IsEnabled : option bool;
  IsBlocking : option bool;
  Type_ : option PolicyTypeRef;
  Settings : value
}.

(** The policy operations of the remote client over the state [R] of the
    remote system.  An operation returns what the Go method returns, a
    pointer and an error, with the remote state that follows. *)
Record Client (R : Type) := {
  CreatePolicyConfiguration :
    option PolicyConfiguration → option string → R →
    option PolicyConfiguration * option goerror * R;
  GetPolicyConfiguration :
    option string → option Z → R →
    option PolicyConfiguration * option goerror * R;
  UpdatePolicyConfiguration :
    option Z → option PolicyConfiguration → option string → R →
    option PolicyConfiguration * option goerror * R;
  DeletePolicyConfiguration :
    option Z → option string → R → option goerror * R
}.

Arguments CreatePolicyConfiguration {R} _ _ _ _.
Arguments GetPolicyConfiguration {R} _ _ _ _.
Arguments UpdatePolicyConfiguration {R} _ _ _ _ _.
Arguments DeletePolicyConfiguration {R} _ _ _ _.

End Policy.

Module Taskagent.

Record TaskAgentPool := {
  Id : option Z;
  Name : option string;
  PoolType : option string;
  AutoProvision : option bool
}.

Record Client (R : Type) := {
  AddAgentPool :
    option TaskAgentPool → R → option TaskAgentPool * option goerror * R;
  GetAgentPool :
    option Z → R → option TaskAgentPool * option goerror * R;
  UpdateAgentPool :
    option Z → option TaskAgentPool → R →
    option TaskAgentPool * option goerror * R;
  DeleteAgentPool : option Z → R → option goerror * R
}.

Arguments AddAgentPool {R} _ _ _.
Arguments GetAgentPool {R} _ _ _.
Arguments UpdateAgentPool {R} _ _ _ _.
Arguments DeleteAgentPool {R} _ _ _.

End Taskagent.

Module Config.

(** [config.AggregatedClient]: the clients a handler receives as its
    [m] argument. *)
Record AggregatedClient (R : Type) := {
  PolicyClient : Policy.Client R;
  TaskAgentClient : Taskagent.Client R
}.

Arguments PolicyClient {R} _.
Arguments TaskAgentClient {R} _.

End Config.


(** * Package [branchpolicy] *)

Module Branchpolicy.

Import Schema Policy.

Definition MinReviewerCount : UUID := "fa4e907d-c16b-4a4c-9dfa-4906e5d171dd".
Definition SuccessfulBuild : UUID := "0609b952-1397-4640-95ec-e00a01b2c241".

(** Keys for schema elements. *)
Definition SchemaProjectID : string := "project_id".
Definition SchemaEnabled : string := "enabled".
Definition SchemaBlocking : string := "blocking".
Definition SchemaSettings : string := "settings".
Definition SchemaScope : string := "scope".
Definition SchemaRepositoryID : string := "repository_id".
Definition SchemaRepositoryRef : string := "repository_ref".
Definition SchemaMatchType : string := "match_type".

Definition matchTypeExact : string := "Exact".
Definition matchTypePrefix : string := "Prefix".

(** The element type of [commonPolicySettings.Scopes], with its JSON keys
    [repositoryId], [refName] and [matchKind]. *)
Record policyScope := {
  RepositoryID : string;
  RepositoryRefName : string;
  MatchType : string
}.

Record commonPolicySettings := { Scopes : list policyScope }.

(** *** [json.Unmarshal] into a [commonPolicySettings]

    A value of the wrong JSON kind for its target is a type error: it is
    recorded (the flag of each result) and skipped, and decoding goes on.
    [null] leaves a string or a struct as it is and empties a slice.  An
    array fills the slice from its start with one fresh element per item.
    A key that matches no field is skipped. *)

Import Json.

Definition decode_string (j : json) (old : string) : string * bool :=
  match j with
  | JString s => (s, false)
  | JNull => (old, false)
  | _ => (old, true)
  end.

Definition decode_scope_member (acc : policyScope * bool) (kv : string * json)
  : policyScope * bool :=
  let '(e, bad) := acc in
  if field_matches "repositoryId" kv.1 then
    let '(s, b) := decode_string kv.2 (RepositoryID e) in
    ({| RepositoryID := s; RepositoryRefName := RepositoryRefName e;
        MatchType := MatchType e |}, bad || b)
  else if field_matches "refName" kv.1 then
    let '(s, b) := decode_string kv.2 (RepositoryRefName e) in
    ({| RepositoryID := RepositoryID e; RepositoryRefName := s;
        MatchType := MatchType e |}, bad || b)
  else if field_matches "matchKind" kv.1 then
    let '(s, b) := decode_string kv.2 (MatchType e) in
    ({| RepositoryID := RepositoryID e;
        RepositoryRefName := RepositoryRefName e; MatchType := s |}, bad || b)
  else acc.

Definition decode_scope (j : json) (old : policyScope) : policyScope * bool :=
  match j with
  | JObject members => fold_left decode_scope_member members (old, false)
  | JNull => (old, false)
  | _ => (old, true)
  end.

Definition zeroScope : policyScope :=
  {| RepositoryID := ""; RepositoryRefName := ""; MatchType := "" |}.

Fixpoint decode_items (items : list json) : list policyScope * bool :=
  match items with
  | [] => ([], false)
  | j :: rest =>
      let '(e, b) := decode_scope j zeroScope in
      let '(es, b') := decode_items rest in
      (e :: es, b || b')
  end.

Definition decode_scopes (j : json) (old : list policyScope)
  : list policyScope * bool :=
  match j with
  | JArray items => decode_items items
  | JNull => ([], false)
  | _ => (old, true)
  end.

Definition decode_settings_member (acc : commonPolicySettings * bool)
  (kv : string * json) : commonPolicySettings * bool :=
  let '(v, bad) := acc in
  if field_matches "scope" kv.1 then
    let '(l, b) := decode_scopes kv.2 (Scopes v) in
    ({| Scopes := l |}, bad || b)
  else acc.

Definition decode_settings (j : json) (old : commonPolicySettings)
  : commonPolicySettings * bool :=
  match j with
  | JObject members => fold_left decode_settings_member members (old, false)
  | JNull => (old, false)
  | _ => (old, true)
  end.

Inductive jsonError := SyntaxError | UnmarshalTypeError.

(** [json.Unmarshal(data, &v)]: a text that is not valid JSON is a syntax
    error and leaves [v] as it was; a valid text is decoded into [v]. *)
Definition Unmarshal (data : string) (v : commonPolicySettings)
  : commonPolicySettings * option jsonError :=
  match parse data with
  | None => (v, Some SyntaxError)
  | Some j =>
      let '(v', bad) := decode_settings j v in
      (v', if bad then Some UnmarshalTypeError else None)
  end.

(** *** The settings codec *)

Definition flattenScope (scope : policyScope) : value :=
  VMap {[ SchemaScope :=
            VMap {[ SchemaRepositoryID := VString (RepositoryID scope);
                    SchemaRepositoryRef := VString (RepositoryRefName scope);
                    SchemaMatchType := VString (MatchType scope) ]} ]}.

Definition flattenSettings (d : ResourceData)
  (policyConfig : option PolicyConfiguration) : outcome value :=
  let policySettings := {| Scopes := [] |} in
  pc ← deref policyConfig;
  let '(policySettings, _) :=
    Unmarshal (Fmt.Sprintf_v (Settings pc)) policySettings in
  let scopes := flattenScope <$> Scopes policySettings in
  Returns (VSlice [ VMap {[ SchemaScope := VSlice scopes ]} ]).

Definition expandScope (scope : value) : outcome value :=
  scopeMap ← asMap scope;
  Returns (VMap {[ "repositoryId" := mapIndex scopeMap SchemaRepositoryID;
                   "refName" := mapIndex scopeMap SchemaRepositoryRef;
                   "matchKind" := mapIndex scopeMap SchemaMatchType ]}).

Definition expandSettings (d : ResourceData) : outcome value :=
  settingsList ← asSlice (Get d SchemaSettings);
  first ← index settingsList 0;
  settings ← asMap first;
  settingsScopes ← asSlice (mapIndex settings SchemaScope);
  scopes ← mapM expandScope settingsScopes;
  Returns (VMap {[ SchemaScope := VSlice scopes ]}).

(** [BaseFlattenFunc] flattens each of the base elements of the schema. *)
Definition BaseFlattenFunc (d : ResourceData)
  (policyConfig : option PolicyConfiguration) (projectID : option string)
  : outcome ResourceData :=
  pc ← deref policyConfig;
  id ← deref (Policy.Id pc);
  let d := SetId (Strconv.Itoa id) d in
  let d := Set_ SchemaProjectID (VString (Converter.ToString projectID "")) d in
  let d := Set_ SchemaEnabled (VBool (Converter.ToBool (IsEnabled pc) true)) d in
  let d := Set_ SchemaBlocking (VBool (Converter.ToBool (IsBlocking pc) true)) d in
  settings ← flattenSettings d policyConfig;
  Returns (Set_ SchemaSettings settings d).

(** *** The generic policy resource factory *)

(** [PolicyCrudArgs]: the arguments of [GenBasePolicyResource].  The expand
    callback reads the attributes; the flatten callback writes them. *)
Record PolicyCrudArgs := {
  FlattenFunc :
    ResourceData → option PolicyConfiguration → option string →
    outcome ResourceData;
  ExpandFunc :
    ResourceData → UUID →
    outcome (option PolicyConfiguration * option string * option goerror);
  PolicyType : UUID
}.

Section Factory.

Variable Quote : string → string.
Context {R : Type}.

(** What a lifecycle function leaves behind: the attribute store, the
    remote state and the returned [error]. *)
Definition result : Type := outcome (ResourceData * R * option goerror).

(** [BaseExpandFunc] expands each of the base elements of the schema. *)
Definition BaseExpandFunc (d : ResourceData) (typeID : UUID)
  : outcome (option PolicyConfiguration * option string * option goerror) :=
  projectID ← asString (Get d SchemaProjectID);
  enabled ← asBool (Get d SchemaEnabled);
  blocking ← asBool (Get d SchemaBlocking);
  settings ← expandSettings d;
  let policyConfig (id : option Z) :=
    {| Policy.Id := id;
       IsEnabled := Converter.Bool enabled;
       IsBlocking := Converter.Bool blocking;
       Type_ := Some {| TypeId := Some typeID |};
       Settings := settings |} in
  if decide (Schema.Id d = "") then
    Returns (Some (policyConfig None), Some projectID, None)
  else
    let '(policyID, err) := Strconv.Atoi (Schema.Id d) in
    match err with
    | Some e =>
        Returns (None, None,
                 Some (Fmt.Errorf ("Error parsing policy configuration ID: ("
                                   +:+ Strconv.NumErrorText Quote e +:+ ")")))
    | None => Returns (Some (policyConfig (Some policyID)), Some projectID, None)
    end.

Definition genPolicyCreateFunc (crudArgs : PolicyCrudArgs)
  (d : ResourceData) (m : Config.AggregatedClient R) (r : R) : result :=
  let clients := m in
  '(policyConfig, projectID, err) ← ExpandFunc crudArgs d (PolicyType crudArgs);
  match err with
  | Some e => Returns (d, r, Some e)
  | None =>
      let '(createdPolicy, err, r) :=
        CreatePolicyConfiguration (Config.PolicyClient clients)
          policyConfig projectID r in
      match err with
      | Some e =>
          Returns (d, r,
                   Some (Fmt.Errorf ("Error creating policy in Azure DevOps: "
                                     +:+ Error e)))
      | None =>
          d ← FlattenFunc crudArgs d createdPolicy projectID;
          Returns (d, r, None)
      end
  end.

Definition genPolicyReadFunc (crudArgs : PolicyCrudArgs)
  (d : ResourceData) (m : Config.AggregatedClient R) (r : R) : result :=
  let clients := m in
  projectID ← asString (Get d SchemaProjectID);
  let '(policyID, err) := Strconv.Atoi (Schema.Id d) in
  match err with
  | Some e =>
      Returns (d, r,
               Some (Fmt.Errorf ("Error converting policy ID to an integer: ("
                                 +:+ Strconv.NumErrorText Quote e +:+ ")")))
  | None =>
      let '(policyConfig, err, r) :=
        GetPolicyConfiguration (Config.PolicyClient clients)
          (Some projectID) (Some policyID) r in
      if Utils.ResponseWasNotFound err then
        Returns (SetId "" d, r, None)
      else
        match err with
        | Some e =>
            Returns (d, r,
                     Some (Fmt.Errorf
                             ("Error looking up build policy configuration with ID ("
                              +:+ Strconv.Itoa policyID +:+ ") and project ID ("
                              +:+ projectID +:+ "): " +:+ Error e)))
        | None =>
            d ← FlattenFunc crudArgs d policyConfig (Some projectID);
            Returns (d, r, None)
        end
  end.

Definition genPolicyUpdateFunc (crudArgs : PolicyCrudArgs)
  (d : ResourceData) (m : Config.AggregatedClient R) (r : R) : result :=
  let clients := m in
  '(policyConfig, projectID, err) ← ExpandFunc crudArgs d (PolicyType crudArgs);
  match err with
  | Some e => Returns (d, r, Some e)
  | None =>
      pc ← deref policyConfig;
      let '(updatedPolicy, err, r) :=
        UpdatePolicyConfiguration (Config.PolicyClient clients)
          (Policy.Id pc) policyConfig projectID r in
      match err with
      | Some e =>
          Returns (d, r,
                   Some (Fmt.Errorf ("Error updating policy in Azure DevOps: "
                                     +:+ Error e)))
      | None =>
          d ← FlattenFunc crudArgs d updatedPolicy projectID;
          Returns (d, r, None)
      end
  end.

Definition genPolicyDeleteFunc (crudArgs : PolicyCrudArgs)
  (d : ResourceData) (m : Config.AggregatedClient R) (r : R) : result :=
  let clients := m in
  '(policyConfig, projectID, err) ← ExpandFunc crudArgs d (PolicyType crudArgs);
  match err with
  | Some e => Returns (d, r, Some e)
  | None =>
      pc ← deref policyConfig;
      let '(err, r) :=
        DeletePolicyConfiguration (Config.PolicyClient clients)
          (Policy.Id pc) projectID r in
      match err with
      | Some e =>
          Returns (d, r,
                   Some (Fmt.Errorf ("Error deleting policy in Azure DevOps: "
                                     +:+ Error e)))
      | None => Returns (d, r, None)
      end
  end.

End Factory.

(** The [State] function of [genPolicyImporter]: the attribute store it
    leaves, the resources it returns and its error.  The returned slice
    holds the pointer [d] itself, that is, the store as it is left. *)
Definition genPolicyImporter (d : ResourceData)
  : ResourceData * (option (list ResourceData) * option goerror) :=
  let id := Schema.Id d in
  let parts := GoStrings.SplitN2 id "/" in
  let malformed :=
    (d, (None,
         Some (Fmt.Errorf ("unexpected format of ID (" +:+ id
                           +:+ "), expected projectid/resourceId")))) in
  match parts with
  | [part0; part1] =>
      if GoStrings.EqualFoldEmpty part0 || GoStrings.EqualFoldEmpty part1
      then malformed
      else
        match (Strconv.Atoi part1).2 with
        | Some _ =>
            (d, (None,
                 Some (Fmt.Errorf ("Policy configuration ID (" +:+ part1
                                   +:+ ") isn't a valid Int"))))
        | None =>
            let d := Set_ SchemaProjectID (VString part0) d in
            let d := SetId part1 d in
            (d, (Some [d], None))
        end
  | _ => malformed
  end.

End Branchpolicy.

(** * Package [azuredevops]: the agent-pool resource *)

Module Azuredevops.

Import Schema Taskagent.

(** [d.Set] with a pointer stores what it points to, and nil for nil. *)
Definition stringPtrValue (p : option string) : value :=
  match p with Some s => VString s | None => VNil end.

Definition boolPtrValue (p : option bool) : value :=
  match p with Some b => VBool b | None => VNil end.

Definition flattenAzureAgentPool (d : ResourceData)
  (agentPool : option TaskAgentPool) : outcome ResourceData :=
  pool ← deref agentPool;
  id ← deref (Taskagent.Id pool);
  let d := SetId (Strconv.Itoa id) d in
  let d := Set_ "name" (VString (Converter.ToString (Name pool) "")) d in
  let d := Set_ "pool_type" (stringPtrValue (PoolType pool)) d in
  let d := Set_ "auto_provision" (boolPtrValue (AutoProvision pool)) d in
  Returns d.

Section AgentPool.

Variable Quote : string → string.
Context {R : Type}.

Definition result : Type := outcome (ResourceData * R * option goerror).

Definition expandAgentPool (d : ResourceData) (forCreate : bool)
  : outcome (option TaskAgentPool * option goerror) :=
  let '(poolID, err) := Strconv.Atoi (Schema.Id d) in
  match negb forCreate, err with
  | true, Some e =>
      Returns (None,
               Some (Fmt.Errorf ("Error getting agent pool Id: "
                                 +:+ Strconv.NumErrorText Quote e)))
  | _, _ =>
      poolType ← asString (Get d "pool_type");
      name ← asString (Get d "name");
      autoProvision ← asBool (Get d "auto_provision");
      Returns (Some {| Taskagent.Id := Some poolID;
                       Name := Converter.String name;
                       PoolType := Some poolType;
                       AutoProvision := Converter.Bool autoProvision |},
               None)
  end.

Definition createAzureAgentPool (clients : Config.AggregatedClient R)
  (agentPool : option TaskAgentPool) (r : R)
  : option TaskAgentPool * option goerror * R :=
  AddAgentPool (Config.TaskAgentClient clients) agentPool r.

Definition azureAgentPoolRead (clients : Config.AggregatedClient R)
  (poolID : Z) (r : R) : option TaskAgentPool * option goerror * R :=
  GetAgentPool (Config.TaskAgentClient clients) (Some poolID) r.

Definition azureAgentPoolUpdate (clients : Config.AggregatedClient R)
  (agentPool : option TaskAgentPool) (r : R)
  : outcome (option TaskAgentPool * option goerror * R) :=
  pool ← deref agentPool;
  Returns (UpdateAgentPool (Config.TaskAgentClient clients)
             (Taskagent.Id pool)
             (Some {| Taskagent.Id := None;
                      Name := Name pool;
                      PoolType := PoolType pool;
                      AutoProvision := AutoProvision pool |})
             r).

Definition resourceAzureAgentPoolRead (d : ResourceData)
  (meta : Config.AggregatedClient R) (r : R) : result :=
  let '(poolID, err) := Strconv.Atoi (Schema.Id d) in
  match err with
  | Some e =>
      Returns (d, r,
               Some (Fmt.Errorf ("Error getting agent pool Id: "
                                 +:+ Strconv.NumErrorText Quote e)))
  | None =>
      let clients := meta in
      let '(agentPool, err, r) := azureAgentPoolRead clients poolID r in
      match err with
      | Some e =>
          Returns (d, r,
                   Some (Fmt.Errorf ("Error looking up agent pool with ID "
                                     +:+ Strconv.Itoa poolID +:+ ". Error: "
                                     +:+ Error e)))
      | None =>
          d ← flattenAzureAgentPool d agentPool;
          Returns (d, r, None)
      end
  end.

Definition resourceAzureAgentPoolCreate (d : ResourceData)
  (meta : Config.AggregatedClient R) (r : R) : result :=
  let clients := meta in
  '(agentPool, err) ← expandAgentPool d true;
  match err with
  | Some e =>
      Returns (d, r,
               Some (Fmt.Errorf
                       ("Error converting terraform data model to AzDO agentPool reference: "
                        +:+ Error e)))
  | None =>
      let '(createdAgentPool, err, r) :=
        createAzureAgentPool clients agentPool r in
      match err with
      | Some e =>
          Returns (d, r,
                   Some (Fmt.Errorf ("Error creating agent pool in Azure DevOps: "
                                     +:+ Error e)))
      | None =>
          d ← flattenAzureAgentPool d createdAgentPool;
          resourceAzureAgentPoolRead d meta r
      end
  end.

Definition resourceAzureAgentPoolUpdate (d : ResourceData)
  (meta : Config.AggregatedClient R) (r : R) : result :=
  let clients := meta in
  '(agentPool, err) ← expandAgentPool d false;
  match err with
  | Some e =>
      Returns (d, r,
               Some (Fmt.Errorf
                       ("Error converting terraform data model to AzDO agent pool reference: "
                        +:+ Error e)))
  | None =>
      '(agentPool, err, r) ← azureAgentPoolUpdate clients agentPool r;
      match err with
      | Some e =>
          Returns (d, r,
                   Some (Fmt.Errorf ("Error updating agent pool in Azure DevOps: "
                                     +:+ Error e)))
      | None => resourceAzureAgentPoolRead d meta r
      end
  end.

Definition resourceAzureAgentPoolDelete (d : ResourceData)
  (meta : Config.AggregatedClient R) (r : R) : result :=
  let '(poolID, err) := Strconv.Atoi (Schema.Id d) in
  match err with
  | Some e =>
      Returns (d, r,
               Some (Fmt.Errorf ("Error getting agent pool Id: "
                                 +:+ Strconv.NumErrorText Quote e)))
  | None =>
      let clients := meta in
      let '(err, r) :=
        DeleteAgentPool (Config.TaskAgentClient clients) (Some poolID) r in
      Returns (d, r, err)
  end.

End AgentPool.

End Azuredevops.

(** * The data model of the settings codec *)

Module Codec.

Import Branchpolicy.

(** A scope entry: repository identifier, ref name and match kind. *)
Record ScopeEntry := {
  repository_id : string;
  repository_ref : string;
  match_type : string
}.

(** A scope entry as the schema holds it, under the schema keys. *)
Definition schemaScope (e : ScopeEntry) : value :=
  VMap {[ SchemaRepositoryID := VString (repository_id e);
          SchemaRepositoryRef := VString (repository_ref e);
          SchemaMatchType := VString (match_type e) ]}.

(** The [settings] attribute for a sequence of scope entries: the
    singleton wrapper block around the [scope] list. *)
Definition schemaSettings (s : list ScopeEntry) : value :=
  VSlice [ VMap {[ SchemaScope := VSlice (schemaScope <$> s) ]} ].

(** A scope entry on the wire, under the API keys. *)
Definition wireScope (e : ScopeEntry) : value :=
  VMap {[ "repositoryId" := VString (repository_id e);
          "refName" := VString (repository_ref e);
          "matchKind" := VString (match_type e) ]}.

(** The settings payload [{ scope: [ ... ] }]. *)
Definition wireSettings (s : list ScopeEntry) : value :=
  VMap {[ "scope" := VSlice (wireScope <$> s) ]}.

(** The field [k] of a value that is a map; nil for any other value. *)
Definition field (v : value) (k : string) : value :=
  match v with
  | VMap m => mapIndex m k
  | _ => VNil
  end.

(** The scope list inside a [settings] attribute value, when it has the
    wrapper shape. *)
Definition scopesOf (v : value) : option (list value) :=
  match v with
  | VSlice [VMap m] =>
      match m !! SchemaScope with
      | Some (VSlice l) => Some l
      | _ => None
      end
  | _ => None
  end.

(** Decoding what encoding produced: the payload that [expandSettings]
    builds from the attributes is carried by a policy configuration and
    handed to [flattenSettings]. *)
Definition roundTrip (d : Schema.ResourceData) : outcome value :=
  encoded ← expandSettings d;
  flattenSettings d
    (Some {| Policy.Id := None; Policy.IsEnabled := None;
             Policy.IsBlocking := None; Policy.Type_ := None;
             Policy.Settings := encoded |}).

End Codec.

(** * Scripted remotes

    Remote clients over a log of the calls received: every operation
    appends its name to the log and answers with a fixed reply. *)

Module Scripted.

Definition policyClient
  (reply : option Policy.PolicyConfiguration * option goerror)
  : Policy.Client (list string) :=
  {| Policy.CreatePolicyConfiguration :=
       λ _ _ log, (reply, log ++ ["CreatePolicyConfiguration"]);
     Policy.GetPolicyConfiguration :=
       λ _ _ log, (reply, log ++ ["GetPolicyConfiguration"]);
     Policy.UpdatePolicyConfiguration :=
       λ _ _ _ log, (reply, log ++ ["UpdatePolicyConfiguration"]);
     Policy.DeletePolicyConfiguration :=
       λ _ _ log, (reply.2, log ++ ["DeletePolicyConfiguration"]) |}.

Definition taskAgentClient
  (reply : option Taskagent.TaskAgentPool * option goerror)
  : Taskagent.Client (list string) :=
  {| Taskagent.AddAgentPool := λ _ log, (reply, log ++ ["AddAgentPool"]);
     Taskagent.GetAgentPool := λ _ log, (reply, log ++ ["GetAgentPool"]);
     Taskagent.UpdateAgentPool :=
       λ _ _ log, (reply, log ++ ["UpdateAgentPool"]);
     Taskagent.DeleteAgentPool :=
       λ _ log, (reply.2, log ++ ["DeleteAgentPool"]) |}.

Definition clients
  (policyReply : option Policy.PolicyConfiguration * option goerror)
  (poolReply : option Taskagent.TaskAgentPool * option goerror)
  : Config.AggregatedClient (list string) :=
  {| Config.PolicyClient := policyClient policyReply;
     Config.TaskAgentClient := taskAgentClient poolReply |}.

(** The errors a remote answers with. *)
Definition notFound : goerror :=
  {| Error := "TF401019: the item does not exist"; NotFound := true |}.

Definition unauthorized : goerror :=
  {| Error := "TF400813: the user is not authorized"; NotFound := false |}.

(** A quoting for running the handlers: double quotes around the text. *)
Definition quote (s : string) : string :=
  String (chr 34) (s +:+ String (chr 34) "").

End Scripted.

(** * The import ID format and the texts of errors *)

Module Format.

(** [contains s c]: the byte [c] occurs in [s]. *)
Fixpoint contains (s : string) (c : ascii) : bool :=
  match s with
  | EmptyString => false
  | String x rest => Ascii.eqb x c || contains rest c
  end.

(** The import ID format [<projectID>/<policyConfigID>]: the text splits at
    its first [/] into a project part and an ID part, both of them non-empty,
    and the ID part parses as an integer. *)
Definition wellFormedImportID (id : string) : Prop :=
  ∃ project policyID : string,
    id = project +:+ "/" +:+ policyID
    ∧ contains project "/" = false
    ∧ project ≠ ""
    ∧ policyID ≠ ""
    ∧ (Strconv.Atoi policyID).2 = None.

(** The two format errors of the importer for the ID [id]. *)
Definition formatError (id : string) (e : goerror) : Prop :=
  e = Fmt.Errorf ("unexpected format of ID (" +:+ id
                  +:+ "), expected projectid/resourceId")
  ∨ ∃ part : string,
      e = Fmt.Errorf ("Policy configuration ID (" +:+ part
                      +:+ ") isn't a valid Int").

(** [mentions part whole]: the text [part] occurs in the text [whole]. *)
Definition mentions (part whole : string) : Prop :=
  ∃ before after : string, whole = before +:+ part +:+ after.

End Format.

(** * Sample states *)

Module Samples.

Import Branchpolicy Codec Schema.

Definition masterExact : ScopeEntry :=
  {| repository_id := "r1"; repository_ref := "refs/heads/master";
     match_type := "Exact" |}.

Definition releasePrefix : ScopeEntry :=
  {| repository_id := ""; repository_ref := "refs/heads/release";
     match_type := "Prefix" |}.

Definition twoScopes : list ScopeEntry := [masterExact; releasePrefix].

(** A policy resource with identifier [id] in project [proj1], holding
    the scope entries [s]. *)
Definition policyState (id : string) (s : list ScopeEntry) : ResourceData :=
  {| rd_id := id;
     rd_attrs := {[ SchemaProjectID := VString "proj1";
                    SchemaEnabled := VBool true;
                    SchemaBlocking := VBool false;
                    SchemaSettings := schemaSettings s ]} |}.

(** An agent-pool resource with identifier [id]. *)
Definition poolState (id : string) : ResourceData :=
  {| rd_id := id;
     rd_attrs := {[ "name" := VString "pool"; "pool_type" := VString "automation";
                    "auto_provision" := VBool false ]} |}.

(** A resource about to be imported: only the identifier slot is set. *)
Definition importState (id : string) : ResourceData :=
  {| rd_id := id; rd_attrs := ∅ |}.

(** JSON sample texts are written with an apostrophe for each double
    quote; [dq] puts the double quotes in. *)
Fixpoint dq (s : string) : string :=
  match s with
  | EmptyString => EmptyString
  | String c rest => String (if code c =? 39 then chr 34 else c) (dq rest)
  end.

(** What [BaseExpandFunc] builds from [policyState "" s]. *)
Definition expandedConfig (s : list ScopeEntry) : Policy.PolicyConfiguration :=
  {| Policy.Id := None;
     Policy.IsEnabled := Some true;
     Policy.IsBlocking := Some false;
     Policy.Type_ := Some {| Policy.TypeId := Some MinReviewerCount |};
     Policy.Settings := wireSettings s |}.

Definition baseCrudArgs : PolicyCrudArgs :=
  {| FlattenFunc := BaseFlattenFunc;
     ExpandFunc := BaseExpandFunc Scripted.quote;
     PolicyType := MinReviewerCount |}.

End Samples.

(** * Decimal texts *)

Module DecimalText.

(** The number that a sequence of decimal digits spells after the digits
    that spelled [acc]. *)
Fixpoint uintVal (u : Decimal.uint) (acc : Z) : Z :=
  match u with
  | Decimal.Nil => acc
  | Decimal.D0 l => uintVal l (acc * 10)
  | Decimal.D1 l => uintVal l (acc * 10 + 1)
  | Decimal.D2 l => uintVal l (acc * 10 + 2)
  | Decimal.D3 l => uintVal l (acc * 10 + 3)
  | Decimal.D4 l => uintVal l (acc * 10 + 4)
  | Decimal.D5 l => uintVal l (acc * 10 + 5)
  | Decimal.D6 l => uintVal l (acc * 10 + 6)
  | Decimal.D7 l => uintVal l (acc * 10 + 7)
  | Decimal.D8 l => uintVal l (acc * 10 + 8)
  | Decimal.D9 l => uintVal l (acc * 10 + 9)
  end.

(** The range of [int]. *)
Definition inIntRange (n : Z) : Prop := - 2 ^ 63 <= n < 2 ^ 63.

End DecimalText.

(** * The base schema of a policy resource *)

Module PolicySchema.

Import Branchpolicy.

Inductive ValueType := TypeBool | TypeString | TypeList.

(** The validation functions the schema names. *)
Inductive Validator :=
| StringInSlice (valid : list string) (ignoreCase : bool).

(** [schema.Schema], with the fields [genBaseSchema] sets.  [Elem] is the
    schema of the nested resource of a list; a limit that is not set is 0. *)
Inductive schema :=
| MkSchema (type : ValueType) (required optional forceNew : bool)
    (default_ : option value) (validateFunc : option Validator)
    (elem : option (gmap string schema)) (minItems maxItems : nat).

Definition Type_ (s : schema) : ValueType :=
  match s with MkSchema t _ _ _ _ _ _ _ _ => t end.
Definition Required (s : schema) : bool :=
  match s with MkSchema _ r _ _ _ _ _ _ _ => r end.
Definition Optional (s : schema) : bool :=
  match s with MkSchema _ _ o _ _ _ _ _ _ => o end.
Definition ForceNew (s : schema) : bool :=
  match s with MkSchema _ _ _ f _ _ _ _ _ => f end.
Definition Default (s : schema) : option value :=
  match s with MkSchema _ _ _ _ d _ _ _ _ => d end.
Definition ValidateFunc (s : schema) : option Validator :=
  match s with MkSchema _ _ _ _ _ v _ _ _ => v end.
Definition Elem (s : schema) : option (gmap string schema) :=
  match s with MkSchema _ _ _ _ _ _ e _ _ => e end.
Definition MinItems (s : schema) : nat :=
  match s with MkSchema _ _ _ _ _ _ _ n _ => n end.
Definition MaxItems (s : schema) : nat :=
  match s with MkSchema _ _ _ _ _ _ _ _ n => n end.

Definition genBaseSchema : gmap string schema :=
  {[ SchemaProjectID :=
       MkSchema TypeString true false true None None None 0 0;
     SchemaEnabled :=
       MkSchema TypeBool false true false (Some (VBool true)) None None 0 0;
     SchemaBlocking :=
       MkSchema TypeBool false true false (Some (VBool true)) None None 0 0;
     SchemaSettings :=
       MkSchema TypeList true false false None None
         (Some
            {[ SchemaScope :=
                 MkSchema TypeList true false false None None
                   (Some
                      {[ SchemaRepositoryID :=
                           MkSchema TypeString false true false None None None 0 0;
                         SchemaRepositoryRef :=
                           MkSchema TypeString false true false None None None 0 0;
                         SchemaMatchType :=
                           MkSchema TypeString false true false
                             (Some (VString matchTypeExact))
                             (Some (StringInSlice
                                      [matchTypeExact; matchTypePrefix] true))
                             None 0 0 ]})
                   1 0 ]})
         1 1 ]}.

End PolicySchema.

(** * Shapes of the settings attribute *)

Module Shapes.

Import Branchpolicy.

(** The wire entry that [expandSettings] builds from one scope block of the
    schema: the three schema keys are read, nil standing for a key that
    the block does not hold. *)
Definition wireOfBlock (block : gmap string value) : value :=
  VMap {[ "repositoryId" := mapIndex block SchemaRepositoryID;
          "refName" := mapIndex block SchemaRepositoryRef;
          "matchKind" := mapIndex block SchemaMatchType ]}.

(** The settings attribute has the shape that [expandSettings] walks: a
    list whose first element is a map, whose [scope] entry is a list of
    maps. *)
Definition walkable (settings : value) (blocks : list (gmap string value))
  : Prop :=
  ∃ (first : gmap string value) (others : list value),
    settings = VSlice (VMap first :: others)
    ∧ first !! SchemaScope = Some (VSlice (VMap <$> blocks)).

(** The JSON document is an array, or a number. *)
Definition isArray (j : Json.json) : Prop := ∃ items, j = Json.JArray items.
Definition isNumber (j : Json.json) : Prop := ∃ lit, j = Json.JNumber lit.

(** The invariant of the parser while it reads a text whose first token
    opens an array: the outermost open container is that array, and the
    finished document is an array. *)
Definition readsArray (st : Json.pstate) (stk : list Json.frame) : Prop :=
  match st with
  | Json.SDone j => stk = [] ∧ isArray j
  | _ => ∃ items, last stk = Some (Json.FArr items)
  end.

End Shapes.

(** * Outcomes of the expand functions *)

Module Outcomes.

Import Branchpolicy Schema Policy.

(** What [BaseExpandFunc] can return for the store [d] and the policy type
    [typeID]: the attributes were read at their types and the settings
    walked; then either the identifier is empty and the configuration has
    no ID, or it parses and the configuration has that ID, or it does not
    parse and an error comes back alone. *)
Definition expandOutcome (Quote : string → string) (d : ResourceData)
  (typeID : UUID) (policyConfig : option PolicyConfiguration)
  (projectID : option string) (err : option goerror) : Prop :=
  ∃ (p : string) (enabled blocking : bool) (settings : value),
    Get d SchemaProjectID = VString p
    ∧ Get d SchemaEnabled = VBool enabled
    ∧ Get d SchemaBlocking = VBool blocking
    ∧ expandSettings d = Returns settings
    ∧ let config (id : option Z) :=
        {| Policy.Id := id; IsEnabled := Some enabled;
           IsBlocking := Some blocking;
           Policy.Type_ := Some {| TypeId := Some typeID |};
           Settings := settings |} in
      (Schema.Id d = "" ∧ policyConfig = Some (config None)
       ∧ projectID = Some p ∧ err = None)
      ∨ (∃ n, Schema.Id d ≠ "" ∧ Strconv.Atoi (Schema.Id d) = (n, None)
              ∧ policyConfig = Some (config (Some n))
              ∧ projectID = Some p ∧ err = None)
      ∨ (∃ n e, Schema.Id d ≠ "" ∧ Strconv.Atoi (Schema.Id d) = (n, Some e)
                ∧ policyConfig = None ∧ projectID = None
                ∧ err = Some (Fmt.Errorf
                                ("Error parsing policy configuration ID: ("
                                 +:+ Strconv.NumErrorText Quote e +:+ ")"))).

End Outcomes.

(** * More sample states *)

Module MoreSamples.

Import Branchpolicy Codec Schema.

(** A configuration as the remote returns it, with the ID 42. *)
Definition remoteConfig : Policy.PolicyConfiguration :=
  {| Policy.Id := Some 42;
     Policy.IsEnabled := None;
     Policy.IsBlocking := Some false;
     Policy.Type_ := Some {| Policy.TypeId := Some MinReviewerCount |};
     Policy.Settings := wireSettings Samples.twoScopes |}.

(** What [BaseExpandFunc] builds from [policyState "42" s]. *)
Definition expandedConfig42 (s : list ScopeEntry) : Policy.PolicyConfiguration :=
  {| Policy.Id := Some 42;
     Policy.IsEnabled := Some true;
     Policy.IsBlocking := Some false;
     Policy.Type_ := Some {| Policy.TypeId := Some MinReviewerCount |};
     Policy.Settings := wireSettings s |}.

(** An agent pool as the remote returns it, with the ID 7. *)
Definition remotePool : Taskagent.TaskAgentPool :=
  {| Taskagent.Id := Some 7;
     Taskagent.Name := Some "pool";
     Taskagent.PoolType := Some "automation";
     Taskagent.AutoProvision := Some false |}.

(** The error of [Atoi] on the text [s] that is no number. *)
Definition syntaxError (s : string) : Strconv.NumError :=
  {| Strconv.Func := "Atoi"; Strconv.Num := s; Strconv.Err := Strconv.ErrSyntax |}.

(** A remote that adds the pool and then does not find it. *)
Definition addThenLose : Config.AggregatedClient (list string) :=
  {| Config.PolicyClient := Scripted.policyClient (None, None);
     Config.TaskAgentClient :=
       {| Taskagent.AddAgentPool :=
            λ _ log, (Some remotePool, None, log ++ ["AddAgentPool"]);
          Taskagent.GetAgentPool :=
            λ _ log, (None, Some Scripted.notFound, log ++ ["GetAgentPool"]);
          Taskagent.UpdateAgentPool :=
            λ _ _ log, (None, None, log ++ ["UpdateAgentPool"]);
          Taskagent.DeleteAgentPool :=
            λ _ log, (None, log ++ ["DeleteAgentPool"]) |} |}.

End MoreSamples.

(** * Properties *)

Section CodecFacts.

Import Branchpolicy Codec Schema Policy.

Lemma mapM_expandScope (s : list ScopeEntry) :
  mapM expandScope (schemaScope <$> s) = Returns (wireScope <$> s).
Proof.
  induction s as [|e s IH]; [reflexivity|].
  cbn [fmap list_fmap mapM]. cbn [fmap list_fmap] in IH. rewrite IH.
  reflexivity.
Qed.

(** The text that [%v] gives for a map begins with the letter [m]. *)
Lemma Sprintf_v_map (m : gmap string value) :
  ∃ rest, Fmt.Sprintf_v (VMap m) = String "m" rest.
Proof. eexists. reflexivity. Qed.

(** No JSON text begins with the letter [m]. *)
Lemma parse_letter_m (rest : string) : Json.parse (String "m" rest) = None.
Proof. reflexivity. Qed.

Lemma Unmarshal_map (m : gmap string value) (v : commonPolicySettings) :
  Unmarshal (Fmt.Sprintf_v (VMap m)) v = (v, Some SyntaxError).
Proof.
  destruct (Sprintf_v_map m) as [rest ->].
  unfold Unmarshal. rewrite parse_letter_m. reflexivity.
Qed.


Lemma flattenSettings_unfold (d : ResourceData) (pc : PolicyConfiguration) :
  flattenSettings d (Some pc) =
  Returns (VSlice [ VMap {[ SchemaScope :=
    VSlice (flattenScope <$>
            Scopes (Unmarshal (Fmt.Sprintf_v (Settings pc))
                      {| Scopes := [] |}).1) ]} ]).
Proof.
  unfold flattenSettings. cbn [deref mbind outcome_bind].
  destruct (Unmarshal _ _) as [v e]. reflexivity.
Qed.

Lemma expandSettings_schema (d : ResourceData) (s : list ScopeEntry) :
  Get d SchemaSettings = schemaSettings s →
  expandSettings d = Returns (wireSettings s).
Proof.
  intros H. unfold expandSettings. rewrite H.
  cbn [schemaSettings asSlice mbind outcome_bind index lookup list_lookup asMap].
  change (mapIndex {[SchemaScope := VSlice (schemaScope <$> s)]} SchemaScope)
    with (VSlice (schemaScope <$> s)).
  cbn [asSlice mbind outcome_bind]. rewrite mapM_expandScope. reflexivity.
Qed.

Lemma schemaSettings_inj (s t : list ScopeEntry) :
  schemaSettings s = schemaSettings t → s = t.
Proof.
  intros H. apply (f_equal scopesOf) in H.
  change (Some (schemaScope <$> s) = Some (schemaScope <$> t)) in H.
  injection H as H. revert t H.
  induction s as [|e s IH]; intros [|e' t] H; try discriminate; [reflexivity|].
  cbn [fmap list_fmap] in H.
  pose proof (f_equal tail H) as Ht. cbn [tail] in Ht.
  pose proof (f_equal (λ l, field (default VNil (head l)) SchemaRepositoryID) H)
    as H1.
  pose proof (f_equal (λ l, field (default VNil (head l)) SchemaRepositoryRef) H)
    as H2.
  pose proof (f_equal (λ l, field (default VNil (head l)) SchemaMatchType) H)
    as H3.
  vm_compute in H1, H2, H3.
  f_equal; [|by apply IH].
  destruct e, e'; cbn in *. congruence.
Qed.

(** C2.  Encoding is total and keeps the shape: whatever sequence of scope
    entries the settings attribute holds, the empty one included,
    [expandSettings] returns, without a panic, the wrapper
    [{ scope: [...] }] whose list has one wire entry per scope entry, in
    the order of the input. *)
Theorem expandSettings_total (d : ResourceData) (s : list ScopeEntry) :
  Get d SchemaSettings = schemaSettings s →
  ∃ scopes : list value,
    expandSettings d = Returns (VMap {[ "scope" := VSlice scopes ]})
    ∧ length scopes = length s
    ∧ ∀ (i : nat) (e : ScopeEntry),
        s !! i = Some e → scopes !! i = Some (wireScope e).
Proof.
  intros H. exists (wireScope <$> s). split; [|split].
  - by apply expandSettings_schema.
  - by rewrite length_fmap.
  - intros i e Hi. by rewrite list_lookup_fmap, Hi.
Qed.

Lemma expandSettings_total_witness :
  Get (Samples.policyState "7" Samples.twoScopes) SchemaSettings
  = schemaSettings Samples.twoScopes
  ∧ ∃ scopes : list value,
      expandSettings (Samples.policyState "7" Samples.twoScopes)
      = Returns (VMap {[ "scope" := VSlice scopes ]})
      ∧ length scopes = length Samples.twoScopes
      ∧ ∀ (i : nat) (e : ScopeEntry),
          Samples.twoScopes !! i = Some e → scopes !! i = Some (wireScope e).
Proof.
  split; [vm_compute; reflexivity|].
  apply (expandSettings_total (Samples.policyState "7" Samples.twoScopes)
           Samples.twoScopes).
  vm_compute; reflexivity.
Defined.

(** Whatever the scope entries, decoding their encoding gives the wrapper
    around an empty scope list: the payload is a map, its [%v] text is not
    JSON, and the failed parse leaves the settings empty. *)
Lemma roundTrip_empties (d : ResourceData) (s : list ScopeEntry) :
  Get d SchemaSettings = schemaSettings s →
  roundTrip d = Returns (schemaSettings []).
Proof.
  intros H. unfold roundTrip. rewrite (expandSettings_schema d s H).
  cbn [mbind outcome_bind]. rewrite flattenSettings_unfold.
  cbn [Settings]. unfold wireSettings. rewrite Unmarshal_map. reflexivity.
Qed.

(** C1 (the code departs from the claim).  At the settings of one scope
    entry, decoding the encoding returns the wrapper around no scope at
    all, which is not the settings that were encoded. *)
Theorem settings_roundtrip_loses_scopes :
  roundTrip (Samples.policyState "7" [Samples.masterExact])
  = Returns (schemaSettings [])
  ∧ schemaSettings [] ≠ schemaSettings [Samples.masterExact].
Proof.
  split.
  - apply (roundTrip_empties _ [Samples.masterExact]). vm_compute; reflexivity.
  - intros H. apply schemaSettings_inj in H. discriminate H.
Qed.

(** A payload that is JSON text decodes, but each entry comes back inside
    one more [scope] map than the schema has. *)
Example flattenSettings_nests_scope :
  flattenSettings (Samples.policyState "7" [])
    (Some {| Id := Some 7; IsEnabled := None; IsBlocking := None;
             Type_ := None;
             Settings :=
               VString (Samples.dq "{'scope':[{'repositoryId':'r1','refName':'refs/heads/master','matchKind':'Exact'}]}") |})
  = Returns (VSlice [ VMap {[ SchemaScope :=
      VSlice [ VMap {[ SchemaScope := schemaScope Samples.masterExact ]} ] ]} ]).
Proof. vm_compute; reflexivity. Qed.

(** A value of the wrong kind inside the payload is skipped and the rest
    is decoded: the result is partial. *)
Example Unmarshal_partial :
  Unmarshal
    (Samples.dq "{'scope':[{'repositoryId':7,'refName':'refs/heads/master'},null]}")
    {| Scopes := [] |}
  = ({| Scopes := [ {| RepositoryID := "";
                       RepositoryRefName := "refs/heads/master";
                       MatchType := "" |};
                    zeroScope ] |},
     Some UnmarshalTypeError).
Proof. vm_compute; reflexivity. Qed.

Lemma Get_Set_eq (d : ResourceData) (k : string) (v : value) :
  Get (Set_ k v d) k = v.
Proof. unfold Get, Set_, mapIndex; cbn. by rewrite lookup_insert_eq. Qed.

Lemma Get_Set_ne (d : ResourceData) (k k' : string) (v : value) :
  k ≠ k' → Get (Set_ k v d) k' = Get d k'.
Proof. intros H. unfold Get, Set_, mapIndex; cbn. by rewrite lookup_insert_ne. Qed.

Lemma BaseFlattenFunc_unfold (d : ResourceData) (pc : PolicyConfiguration)
  (id : Z) (projectID : option string) :
  Policy.Id pc = Some id →
  BaseFlattenFunc d (Some pc) projectID =
  Returns
    (Set_ SchemaSettings
       (VSlice [ VMap {[ SchemaScope :=
          VSlice (flattenScope <$>
                  Scopes (Unmarshal (Fmt.Sprintf_v (Settings pc))
                            {| Scopes := [] |}).1) ]} ])
       (Set_ SchemaBlocking (VBool (Converter.ToBool (IsBlocking pc) true))
          (Set_ SchemaEnabled (VBool (Converter.ToBool (IsEnabled pc) true))
             (Set_ SchemaProjectID (VString (Converter.ToString projectID ""))
                (SetId (Strconv.Itoa id) d))))).
Proof.
  intros Hid. unfold BaseFlattenFunc. cbn [deref mbind outcome_bind].
  rewrite Hid. cbn [deref mbind outcome_bind].
  rewrite flattenSettings_unfold. reflexivity.
Qed.


(** C10.  The flatten defaults: [BaseFlattenFunc] writes [true] for the
    enabled (blocking) attribute when the remote configuration has no
    [IsEnabled] ([IsBlocking]), and the remote value when it has one. *)
Theorem flatten_defaults (d : ResourceData) (id : Z)
  (enabled blocking : option bool) (ty : option PolicyTypeRef)
  (settings : value) (projectID : option string) :
  ∃ d' : ResourceData,
    BaseFlattenFunc d
      (Some {| Policy.Id := Some id; IsEnabled := enabled;
               IsBlocking := blocking; Type_ := ty; Settings := settings |})
      projectID = Returns d'
    ∧ Get d' SchemaEnabled
      = VBool (match enabled with Some b => b | None => true end)
    ∧ Get d' SchemaBlocking
      = VBool (match blocking with Some b => b | None => true end).
Proof.
  eexists. split; [|split].
  - by apply (BaseFlattenFunc_unfold d _ id).
  - rewrite !Get_Set_ne by done. rewrite Get_Set_eq. by destruct enabled.
  - rewrite Get_Set_ne by done. rewrite Get_Set_eq. by destruct blocking.
Qed.

End CodecFacts.

Section ImportFacts.

Import Branchpolicy Schema Format GoStrings.

Lemma append_cons (c : ascii) (a b : string) :
  String c a +:+ b = String c (a +:+ b).
Proof. reflexivity. Qed.

Lemma cut_Some (s : string) (sep : ascii) (before after : string) :
  cut s sep = Some (before, after) →
  s = before +:+ String sep after ∧ contains before sep = false.
Proof.
  revert before. induction s as [|c s IH]; intros before H; [discriminate|].
  cbn [cut] in H. destruct (Ascii.eqb c sep) eqn:Hc.
  - apply Ascii.eqb_eq in Hc. injection H as <- <-. by subst.
  - destruct (cut s sep) as [[b a]|] eqn:Hcut; [|discriminate].
    injection H as <- <-. destruct (IH b eq_refl) as [-> Hb].
    split; [reflexivity|]. cbn [contains]. by rewrite Hc, Hb.
Qed.

Lemma cut_app (sep : ascii) (before after : string) :
  contains before sep = false →
  cut (before +:+ String sep after) sep = Some (before, after).
Proof.
  induction before as [|c b IH]; intros H.
  - change ("" +:+ String sep after) with (String sep after).
    cbn [cut]. by rewrite Ascii.eqb_refl.
  - cbn [contains] in H. apply orb_false_iff in H as [Hc Hb].
    rewrite append_cons. cbn [cut]. rewrite Hc, (IH Hb). reflexivity.
Qed.

Lemma EqualFoldEmpty_false (s : string) : s ≠ "" → EqualFoldEmpty s = false.
Proof. by destruct s. Qed.

(** The importer on an ID that has the format. *)
Lemma genPolicyImporter_ok (d : ResourceData) (project policyID : string) :
  Id d = project +:+ "/" +:+ policyID →
  contains project "/" = false →
  project ≠ "" →
  policyID ≠ "" →
  (Strconv.Atoi policyID).2 = None →
  genPolicyImporter d
  = (SetId policyID (Set_ SchemaProjectID (VString project) d),
     (Some [SetId policyID (Set_ SchemaProjectID (VString project) d)], None)).
Proof.
  intros Hid Hslash Hp Hi Hatoi. unfold genPolicyImporter, SplitN2.
  rewrite Hid. change ("/" +:+ policyID) with (String "/" policyID).
  rewrite (cut_app _ _ _ Hslash).
  rewrite (EqualFoldEmpty_false _ Hp), (EqualFoldEmpty_false _ Hi).
  cbn [orb]. rewrite Hatoi. reflexivity.
Qed.

(** The importer either fails with a format error and leaves the store as
    it is, or the ID has the format. *)
Lemma genPolicyImporter_cases (d : ResourceData) :
  (∃ e : goerror,
      genPolicyImporter d = (d, (None, Some e)) ∧ formatError (Id d) e)
  ∨ wellFormedImportID (Id d).
Proof.
  unfold genPolicyImporter, SplitN2.
  destruct (cut (Id d) "/") as [[p0 p1]|] eqn:Hcut.
  - destruct (cut_Some _ _ _ _ Hcut) as [Hid Hslash].
    destruct (EqualFoldEmpty p0) eqn:H0; [left; eexists; split; [reflexivity|by left]|].
    destruct (EqualFoldEmpty p1) eqn:H1; [left; eexists; split; [reflexivity|by left]|].
    cbn [orb]. destruct (Strconv.Atoi p1).2 as [ne|] eqn:Hatoi.
    + left. eexists. split; [reflexivity|]. right. by exists p1.
    + right. exists p0, p1. repeat split; try done.
      * intros ->. discriminate H0.
      * intros ->. discriminate H1.
  - left. eexists. split; [reflexivity|by left].
Qed.

(** C5.  The importer is characterised by the format of the ID.  It
    succeeds exactly when the ID splits at its first [/] into a non-empty
    project part and a non-empty ID part that parses as an integer; it then
    sets the project attribute to the first part and the identifier to the
    second, and returns that one resource.  On any other ID it fails with a
    format error and leaves the attribute store as it was. *)
Theorem import_characterised (d : ResourceData) :
  ((genPolicyImporter d).2.2 = None ↔ wellFormedImportID (Id d))
  ∧ (∀ project policyID : string,
        Id d = project +:+ "/" +:+ policyID →
        contains project "/" = false →
        project ≠ "" → policyID ≠ "" →
        (Strconv.Atoi policyID).2 = None →
        let d' := SetId policyID (Set_ SchemaProjectID (VString project) d) in
        genPolicyImporter d = (d', (Some [d'], None))
        ∧ Get d' SchemaProjectID = VString project
        ∧ Id d' = policyID)
  ∧ (¬ wellFormedImportID (Id d) →
     ∃ e : goerror,
       genPolicyImporter d = (d, (None, Some e)) ∧ formatError (Id d) e).
Proof.
  split; [split|split].
  - intros Hok. destruct (genPolicyImporter_cases d) as [(e & He & _)|Hwf]; [|done].
    rewrite He in Hok. discriminate Hok.
  - intros (project & policyID & Hid & Hslash & Hp & Hi & Hatoi).
    by rewrite (genPolicyImporter_ok d project policyID).
  - intros project policyID Hid Hslash Hp Hi Hatoi d'. split; [|split].
    + by apply genPolicyImporter_ok.
    + unfold d'. unfold Get, SetId, Set_, mapIndex; cbn.
      by rewrite lookup_insert_eq.
    + reflexivity.
  - intros Hnot. by destruct (genPolicyImporter_cases d) as [He|Hwf].
Qed.

(** The import of ["proj1/42"] sets the project attribute to ["proj1"] and
    the identifier to ["42"]. *)
Lemma import_characterised_witness :
  let d' := SetId "42" (Set_ SchemaProjectID (VString "proj1")
                          (Samples.importState "proj1/42")) in
  genPolicyImporter (Samples.importState "proj1/42") = (d', (Some [d'], None))
  ∧ Get d' SchemaProjectID = VString "proj1"
  ∧ Id d' = "42".
Proof.
  apply (proj1 (proj2 (import_characterised (Samples.importState "proj1/42")))
           "proj1" "42").
  - reflexivity.
  - reflexivity.
  - discriminate.
  - discriminate.
  - reflexivity.
Defined.

End ImportFacts.

Section FactoryFacts.

Import Branchpolicy Schema Policy Format.

Variable Quote : string → string.
Context {R : Type}.

Lemma mentions_middle (before part after : string) :
  mentions part (before +:+ part +:+ after).
Proof. by exists before, after. Qed.

Lemma append_assoc (a b c : string) : (a +:+ b) +:+ c = a +:+ b +:+ c.
Proof.
  induction a as [|x a IH]; [reflexivity|].
  change (String x ((a +:+ b) +:+ c) = String x (a +:+ b +:+ c)).
  by rewrite IH.
Qed.

(** C4.  Read recovers from "not found": with a stored identifier that
    parses as an integer, when the remote fetch reports "not found" the
    read operation returns no error, and all it does to the attribute store
    is to clear the identifier; whatever the flatten callback is, it plays
    no part. *)
Theorem read_not_found_clears_identity (crudArgs : PolicyCrudArgs)
  (d : ResourceData) (m : Config.AggregatedClient R) (r r' : R)
  (projectID : string) (policyID : Z)
  (policyConfig : option PolicyConfiguration) (e : goerror) :
  Get d SchemaProjectID = VString projectID →
  Strconv.Atoi (Schema.Id d) = (policyID, None) →
  GetPolicyConfiguration (Config.PolicyClient m)
    (Some projectID) (Some policyID) r = (policyConfig, Some e, r') →
  NotFound e = true →
  genPolicyReadFunc Quote crudArgs d m r = Returns (SetId "" d, r', None)
  ∧ Schema.Id (SetId "" d) = ""
  ∧ rd_attrs (SetId "" d) = rd_attrs d.
Proof.
  intros Hproj Hid Hget Hnf. split; [|done].
  unfold genPolicyReadFunc. rewrite Hproj. cbn [asString mbind outcome_bind].
  rewrite Hid, Hget. cbn [Utils.ResponseWasNotFound]. by rewrite Hnf.
Qed.

(** C8.  Read reports any other failure: with a stored identifier that
    parses as an integer, when the remote fetch fails with an error that is
    not "not found" the read operation returns an error whose text mentions
    the numeric policy ID and the project ID, and leaves the attribute
    store as it was. *)
Theorem read_failure_names_id_and_project (crudArgs : PolicyCrudArgs)
  (d : ResourceData) (m : Config.AggregatedClient R) (r r' : R)
  (projectID : string) (policyID : Z)
  (policyConfig : option PolicyConfiguration) (e : goerror) :
  Get d SchemaProjectID = VString projectID →
  Strconv.Atoi (Schema.Id d) = (policyID, None) →
  GetPolicyConfiguration (Config.PolicyClient m)
    (Some projectID) (Some policyID) r = (policyConfig, Some e, r') →
  NotFound e = false →
  ∃ err : goerror,
    genPolicyReadFunc Quote crudArgs d m r = Returns (d, r', Some err)
    ∧ Error err
      = "Error looking up build policy configuration with ID ("
        +:+ Strconv.Itoa policyID +:+ ") and project ID (" +:+ projectID
        +:+ "): " +:+ Error e
    ∧ mentions (Strconv.Itoa policyID) (Error err)
    ∧ mentions projectID (Error err).
Proof.
  intros Hproj Hid Hget Hnf. eexists. split; [|split; [|split]].
  - unfold genPolicyReadFunc. rewrite Hproj. cbn [asString mbind outcome_bind].
    rewrite Hid, Hget. cbn [Utils.ResponseWasNotFound]. rewrite Hnf.
    reflexivity.
  - reflexivity.
  - apply mentions_middle.
  - cbn [Fmt.Errorf Error].
    exists ("Error looking up build policy configuration with ID ("
            +:+ Strconv.Itoa policyID +:+ ") and project ID ("),
           ("): " +:+ Error e).
    by rewrite !append_assoc.
Qed.

(** C6.  Create assigns no identity when the remote create fails: the
    operation returns an error that carries the text of the remote error,
    and leaves the attribute store, the identifier included, as it was;
    whatever the flatten callback is, it plays no part. *)
Theorem create_remote_failure (crudArgs : PolicyCrudArgs)
  (d : ResourceData) (m : Config.AggregatedClient R) (r r' : R)
  (policyConfig created : option PolicyConfiguration)
  (projectID : option string) (e : goerror) :
  ExpandFunc crudArgs d (PolicyType crudArgs)
  = Returns (policyConfig, projectID, None) →
  CreatePolicyConfiguration (Config.PolicyClient m) policyConfig projectID r
  = (created, Some e, r') →
  ∃ err : goerror,
    genPolicyCreateFunc crudArgs d m r = Returns (d, r', Some err)
    ∧ Error err = "Error creating policy in Azure DevOps: " +:+ Error e
    ∧ mentions (Error e) (Error err).
Proof.
  intros Hexp Hcreate. eexists. split; [|split].
  - unfold genPolicyCreateFunc. rewrite Hexp. cbn [mbind outcome_bind].
    rewrite Hcreate. reflexivity.
  - reflexivity.
  - exists "Error creating policy in Azure DevOps: ", "".
    cbn [Fmt.Errorf Error]. f_equal.
    induction (Error e) as [|c s IH]; [reflexivity|].
    change (String c s = String c (s +:+ "")). by rewrite <- IH.
Qed.

End FactoryFacts.

Section AgentPoolFacts.

Import Azuredevops Schema Taskagent Format.

Variable Quote : string → string.
Context {R : Type}.

(** C7.  Agent-pool update rejects an identifier that does not parse as an
    integer: it returns an error and the remote state is the one it
    started from, whatever the remote client is: no remote call is made.
    The attribute store is left as it was too. *)
Theorem agent_pool_update_rejects_bad_id (d : ResourceData)
  (meta : Config.AggregatedClient R) (r : R)
  (n : Z) (e : Strconv.NumError) :
  Strconv.Atoi (Schema.Id d) = (n, Some e) →
  resourceAzureAgentPoolUpdate Quote d meta r
  = Returns (d, r,
             Some (Fmt.Errorf
                     ("Error converting terraform data model to AzDO agent pool reference: "
                      +:+ "Error getting agent pool Id: "
                      +:+ Strconv.NumErrorText Quote e))).
Proof.
  intros Hid. unfold resourceAzureAgentPoolUpdate, expandAgentPool.
  rewrite Hid. reflexivity.
Qed.

(** C9 (the code departs from the claim).  Agent-pool read has no
    recovery from "not found": with a stored identifier that parses as an
    integer, any error of the remote fetch, "not found" included, makes the
    read operation return an error, and the identifier stays as it was. *)
Theorem agent_pool_read_not_found_is_error (d : ResourceData)
  (meta : Config.AggregatedClient R) (r r' : R) (poolID : Z)
  (agentPool : option TaskAgentPool) (e : goerror) :
  Strconv.Atoi (Schema.Id d) = (poolID, None) →
  GetAgentPool (Config.TaskAgentClient meta) (Some poolID) r
  = (agentPool, Some e, r') →
  NotFound e = true →
  resourceAzureAgentPoolRead Quote d meta r
  = Returns (d, r',
             Some (Fmt.Errorf ("Error looking up agent pool with ID "
                               +:+ Strconv.Itoa poolID +:+ ". Error: "
                               +:+ Error e))).
Proof.
  intros Hid Hget _. unfold resourceAzureAgentPoolRead, azureAgentPoolRead.
  rewrite Hid, Hget. reflexivity.
Qed.

End AgentPoolFacts.

Section Runs.

Import Branchpolicy Azuredevops Schema Format.

Lemma read_not_found_clears_identity_witness :
  let d := Samples.policyState "42" Samples.twoScopes in
  genPolicyReadFunc Scripted.quote Samples.baseCrudArgs d
    (Scripted.clients (None, Some Scripted.notFound) (None, None)) []
  = Returns (SetId "" d, ["GetPolicyConfiguration"], None)
  ∧ Schema.Id (SetId "" d) = ""
  ∧ rd_attrs (SetId "" d) = rd_attrs d.
Proof.
  apply (read_not_found_clears_identity Scripted.quote Samples.baseCrudArgs
           (Samples.policyState "42" Samples.twoScopes)
           (Scripted.clients (None, Some Scripted.notFound) (None, None))
           [] ["GetPolicyConfiguration"] "proj1" 42 None Scripted.notFound).
  - vm_compute; reflexivity.
  - vm_compute; reflexivity.
  - vm_compute; reflexivity.
  - reflexivity.
Defined.

Lemma read_failure_names_id_and_project_witness :
  let d := Samples.policyState "42" Samples.twoScopes in
  ∃ err : goerror,
    genPolicyReadFunc Scripted.quote Samples.baseCrudArgs d
      (Scripted.clients (None, Some Scripted.unauthorized) (None, None)) []
    = Returns (d, ["GetPolicyConfiguration"], Some err)
    ∧ Error err
      = "Error looking up build policy configuration with ID ("
        +:+ Strconv.Itoa 42 +:+ ") and project ID (" +:+ "proj1"
        +:+ "): " +:+ Error Scripted.unauthorized
    ∧ mentions (Strconv.Itoa 42) (Error err)
    ∧ mentions "proj1" (Error err).
Proof.
  apply (read_failure_names_id_and_project Scripted.quote Samples.baseCrudArgs
           (Samples.policyState "42" Samples.twoScopes)
           (Scripted.clients (None, Some Scripted.unauthorized) (None, None))
           [] ["GetPolicyConfiguration"] "proj1" 42 None Scripted.unauthorized).
  - vm_compute; reflexivity.
  - vm_compute; reflexivity.
  - vm_compute; reflexivity.
  - reflexivity.
Defined.

Lemma create_remote_failure_witness :
  let d := Samples.policyState "" Samples.twoScopes in
  ExpandFunc Samples.baseCrudArgs d (PolicyType Samples.baseCrudArgs)
  = Returns (Some (Samples.expandedConfig Samples.twoScopes), Some "proj1", None)
  ∧ ∃ err : goerror,
      genPolicyCreateFunc Samples.baseCrudArgs d
        (Scripted.clients (None, Some Scripted.unauthorized) (None, None)) []
      = Returns (d, ["CreatePolicyConfiguration"], Some err)
      ∧ Error err
        = "Error creating policy in Azure DevOps: "
          +:+ Error Scripted.unauthorized
      ∧ mentions (Error Scripted.unauthorized) (Error err).
Proof.
  split; [vm_compute; reflexivity|].
  apply (create_remote_failure Samples.baseCrudArgs
           (Samples.policyState "" Samples.twoScopes)
           (Scripted.clients (None, Some Scripted.unauthorized) (None, None))
           [] ["CreatePolicyConfiguration"]
           (Some (Samples.expandedConfig Samples.twoScopes)) None
           (Some "proj1") Scripted.unauthorized).
  - vm_compute; reflexivity.
  - vm_compute; reflexivity.
Defined.

Lemma agent_pool_update_rejects_bad_id_witness :
  Strconv.Atoi (Schema.Id (Samples.poolState "seven"))
  = (0, Some {| Strconv.Func := "Atoi"; Strconv.Num := "seven";
                Strconv.Err := Strconv.ErrSyntax |})
  ∧ resourceAzureAgentPoolUpdate Scripted.quote (Samples.poolState "seven")
      (Scripted.clients (None, None) (None, None)) []
    = Returns (Samples.poolState "seven", [],
               Some (Fmt.Errorf
                       ("Error converting terraform data model to AzDO agent pool reference: "
                        +:+ "Error getting agent pool Id: "
                        +:+ Strconv.NumErrorText Scripted.quote
                              {| Strconv.Func := "Atoi"; Strconv.Num := "seven";
                                 Strconv.Err := Strconv.ErrSyntax |}))).
Proof.
  split; [vm_compute; reflexivity|].
  apply (agent_pool_update_rejects_bad_id Scripted.quote
           (Samples.poolState "seven")
           (Scripted.clients (None, None) (None, None)) [] 0).
  vm_compute; reflexivity.
Defined.

Lemma agent_pool_read_not_found_is_error_witness :
  resourceAzureAgentPoolRead Scripted.quote (Samples.poolState "7")
    (Scripted.clients (None, None) (None, Some Scripted.notFound)) []
  = Returns (Samples.poolState "7", ["GetAgentPool"],
             Some (Fmt.Errorf ("Error looking up agent pool with ID "
                               +:+ Strconv.Itoa 7 +:+ ". Error: "
                               +:+ Error Scripted.notFound))).
Proof.
  apply (agent_pool_read_not_found_is_error Scripted.quote
           (Samples.poolState "7")
           (Scripted.clients (None, None) (None, Some Scripted.notFound))
           [] ["GetAgentPool"] 7 None Scripted.notFound).
  - vm_compute; reflexivity.
  - vm_compute; reflexivity.
  - reflexivity.
Defined.

End Runs.

(** * More properties of the handlers *)

Section StrconvFacts.

Import Strconv DecimalText.

Lemma uintVal_ge (u : Decimal.uint) (acc : Z) : 0 <= acc → acc <= uintVal u acc.
Proof.
  revert acc. induction u as [|u IH|u IH|u IH|u IH|u IH|u IH|u IH|u IH|u IH|u IH];
    intros acc Hacc; cbn [uintVal]; [lia|..];
    (etrans; [|apply IH; lia]); lia.
Qed.

Lemma uintVal_of_uint_acc (u : Decimal.uint) (acc : positive) :
  Z.pos (Pos.of_uint_acc u acc) = uintVal u (Z.pos acc).
Proof.
  revert acc. induction u as [|u IH|u IH|u IH|u IH|u IH|u IH|u IH|u IH|u IH|u IH];
    intros acc; cbn [uintVal Pos.of_uint_acc]; [reflexivity|..];
    rewrite IH; f_equal; lia.
Qed.

Lemma uintVal_of_uint (u : Decimal.uint) :
  Z.of_N (Pos.of_uint u) = uintVal u 0.
Proof.
  induction u as [|u IH|u IH|u IH|u IH|u IH|u IH|u IH|u IH|u IH|u IH];
    cbn [uintVal Pos.of_uint]; [reflexivity|exact IH|..];
    cbn [Z.of_N]; rewrite uintVal_of_uint_acc; reflexivity.
Qed.

(** The loop of [ParseUint] reads back the digits of a decimal text. *)
Lemma parseUintLoop_digits (u : Decimal.uint) (acc : Z) :
  0 <= acc → uintVal u acc <= maxUint64 →
  parseUintLoop (NilEmpty.string_of_uint u) acc = (uintVal u acc, None).
Proof.
  revert acc. induction u as [|u IH|u IH|u IH|u IH|u IH|u IH|u IH|u IH|u IH|u IH];
    intros acc Hacc Hmax; cbn [uintVal NilEmpty.string_of_uint parseUintLoop];
    [reflexivity|..];
    cbn [uintVal] in Hmax;
    match goal with
    | |- context [digit ?c] =>
        let d := eval vm_compute in (digit c) in change (digit c) with d
    end;
    cbv beta iota;
    match type of Hmax with
    | uintVal _ ?a <= _ => pose proof (uintVal_ge u a ltac:(lia)) as Hge
    end;
    unfold maxUint64 in *;
    (destruct (Z.leb_spec (( 2 ^ 64 - 1) / 10 + 1) acc) as [Hc|Hc];
     [exfalso; change ((2 ^ 64 - 1) / 10 + 1) with 1844674407370955162 in Hc;
      change (2 ^ 64 - 1) with 18446744073709551615 in Hmax; lia|]);
    match goal with
    | |- context [Z.ltb ?m ?n1] =>
        destruct (Z.ltb_spec m n1) as [Hn|Hn];
        [exfalso; change (2 ^ 64 - 1) with 18446744073709551615 in *; lia|]
    end;
    rewrite <- IH by (try rewrite Z.add_0_r; assumption || lia);
    f_equal; lia.
Qed.

Lemma ParseUint_digits (u : Decimal.uint) :
  u ≠ Decimal.Nil → uintVal u 0 <= maxUint64 →
  ParseUint (NilEmpty.string_of_uint u) = (uintVal u 0, None).
Proof.
  intros Hu Hmax. rewrite <- (parseUintLoop_digits u 0) by (lia || assumption).
  destruct u; [done|reflexivity..].
Qed.

Lemma ParseInt_digits (u : Decimal.uint) :
  u ≠ Decimal.Nil → uintVal u 0 < 2 ^ 63 →
  ParseInt (NilEmpty.string_of_uint u) = (uintVal u 0, None).
Proof.
  intros Hu Hmax.
  assert (Hp : ParseUint (NilEmpty.string_of_uint u) = (uintVal u 0, None)).
  { apply ParseUint_digits; [done|]. unfold maxUint64. lia. }
  assert (H0 : 0 <= uintVal u 0) by (apply uintVal_ge; lia).
  destruct u; [done|..];
    (unfold ParseInt; cbn [NilEmpty.string_of_uint];
     cbn [NilEmpty.string_of_uint] in Hp;
     match goal with
     | |- context [Ascii.eqb ?c "-"] =>
         change (Ascii.eqb c "-") with false; change (Ascii.eqb c "+") with false
     end;
     cbn [orb andb negb]; rewrite Hp; cbv beta iota zeta; cbn [andb negb];
     match goal with
     | |- context [Z.leb ?a ?b] => destruct (Z.leb_spec a b); [lia|reflexivity]
     end).
Qed.

Lemma ParseInt_minus_digits (u : Decimal.uint) :
  u ≠ Decimal.Nil → uintVal u 0 <= 2 ^ 63 →
  ParseInt (String "-" (NilEmpty.string_of_uint u)) = (- uintVal u 0, None).
Proof.
  intros Hu Hmax. unfold ParseInt.
  change (Ascii.eqb "-" "-") with true. change (Ascii.eqb "-" "+") with false.
  cbn [orb andb negb].
  rewrite ParseUint_digits by (done || unfold maxUint64; lia).
  cbv beta iota zeta. cbn [andb negb].
  destruct (Z.ltb_spec (2 ^ 63) (uintVal u 0)); [lia|reflexivity].
Qed.

(** [Atoi] reads back what [Itoa] writes, for every [int]. *)
Lemma Atoi_Itoa (n : Z) : inIntRange n → Atoi (Itoa n) = (n, None).
Proof.
  intros [Hlo Hhi]. unfold Atoi, Itoa. destruct n as [|p|p].
  - reflexivity.
  - cbn [Z.to_int NilZero.string_of_int].
    pose proof (DecimalPos.Unsigned.to_uint_nonnil p) as Hnil.
    pose proof (DecimalPos.Unsigned.of_to p) as Hof.
    apply (f_equal Z.of_N) in Hof. rewrite uintVal_of_uint in Hof.
    cbn [Z.of_N] in Hof.
    replace (NilZero.string_of_uint (Pos.to_uint p))
      with (NilEmpty.string_of_uint (Pos.to_uint p))
      by (by destruct (Pos.to_uint p)).
    rewrite ParseInt_digits by (done || lia). by rewrite Hof.
  - cbn [Z.to_int NilZero.string_of_int].
    pose proof (DecimalPos.Unsigned.to_uint_nonnil p) as Hnil.
    pose proof (DecimalPos.Unsigned.of_to p) as Hof.
    apply (f_equal Z.of_N) in Hof. rewrite uintVal_of_uint in Hof.
    cbn [Z.of_N] in Hof.
    replace (NilZero.string_of_uint (Pos.to_uint p))
      with (NilEmpty.string_of_uint (Pos.to_uint p))
      by (by destruct (Pos.to_uint p)).
    change (String (Ascii.Ascii true false true true false true false false) ?x)
      with (String "-" x).
    rewrite ParseInt_minus_digits by (done || lia). by rewrite Hof.
Qed.


End StrconvFacts.

Section FlattenMore.

Import Branchpolicy Schema Policy DecimalText PolicySchema.

Lemma ResourceData_eq (d1 d2 : ResourceData) :
  rd_id d1 = rd_id d2 →
  (∀ k, rd_attrs d1 !! k = rd_attrs d2 !! k) →
  d1 = d2.
Proof.
  destruct d1 as [i1 a1], d2 as [i2 a2]; cbn. intros -> H.
  f_equal. by apply map_eq.
Qed.

Lemma BaseFlattenFunc_returns_id (d d' : ResourceData)
  (policyConfig : option PolicyConfiguration) (projectID : option string) :
  BaseFlattenFunc d policyConfig projectID = Returns d' →
  ∃ pc id, policyConfig = Some pc ∧ Policy.Id pc = Some id.
Proof.
  intros H. destruct policyConfig as [pc|]; [|discriminate].
  destruct (Policy.Id pc) as [id|] eqn:Hid; [by exists pc, id|].
  unfold BaseFlattenFunc in H. cbn [deref mbind outcome_bind] in H.
  rewrite Hid in H. discriminate.
Qed.

(** Flattening a configuration into the store that the same flatten left
    changes nothing. *)
Lemma BaseFlattenFunc_again (d d' : ResourceData)
  (policyConfig : option PolicyConfiguration) (projectID : option string) :
  BaseFlattenFunc d policyConfig projectID = Returns d' →
  BaseFlattenFunc d' policyConfig projectID = Returns d'.
Proof.
  intros H.
  destruct (BaseFlattenFunc_returns_id _ _ _ _ H) as (pc & id & -> & Hid).
  rewrite (BaseFlattenFunc_unfold _ pc id) in H by done.
  rewrite (BaseFlattenFunc_unfold _ pc id) by done.
  injection H as <-. f_equal. apply ResourceData_eq; [reflexivity|].
  intros k. unfold Set_, SetId; cbn.
  rewrite !lookup_insert. by repeat case_decide.
Qed.

(** X1.  [BaseFlattenFunc] returns exactly when it is given a
    configuration that carries an identifier; on a nil configuration or a
    nil identifier it panics, whatever else the configuration holds. *)
Theorem BaseFlattenFunc_returns_iff (d : ResourceData)
  (policyConfig : option PolicyConfiguration) (projectID : option string) :
  (∃ d', BaseFlattenFunc d policyConfig projectID = Returns d')
  ↔ ∃ pc id, policyConfig = Some pc ∧ Policy.Id pc = Some id.
Proof.
  split.
  - intros [d' H]. by apply (BaseFlattenFunc_returns_id d d' _ projectID).
  - intros (pc & id & -> & Hid). eexists.
    by apply (BaseFlattenFunc_unfold d pc id).
Qed.



(** X3.  The flatten defaults are the schema defaults: for a remote
    configuration without [IsEnabled] (without [IsBlocking]),
    [BaseFlattenFunc] writes the value that [genBaseSchema] declares as the
    default of the enabled (blocking) attribute. *)
Theorem flatten_defaults_match_schema (d d' : ResourceData)
  (pc : PolicyConfiguration) (projectID : option string) :
  BaseFlattenFunc d (Some pc) projectID = Returns d' →
  (IsEnabled pc = None →
   genBaseSchema !! SchemaEnabled ≫= Default = Some (Get d' SchemaEnabled))
  ∧ (IsBlocking pc = None →
     genBaseSchema !! SchemaBlocking ≫= Default = Some (Get d' SchemaBlocking)).
Proof.
  intros H.
  destruct (BaseFlattenFunc_returns_id _ _ _ _ H) as (pc' & id & [= <-] & Hid).
  rewrite (BaseFlattenFunc_unfold d pc id) in H by done.
  injection H as <-. split; intros Hnil.
  - rewrite !Get_Set_ne by done. rewrite Get_Set_eq, Hnil. reflexivity.
  - rewrite Get_Set_ne by done. rewrite Get_Set_eq, Hnil. reflexivity.
Qed.

End FlattenMore.

Section ExpandMore.

Import Branchpolicy Schema Policy Shapes.

Lemma mapM_expandScope_blocks (blocks : list (gmap string value)) :
  mapM expandScope (VMap <$> blocks) = Returns (wireOfBlock <$> blocks).
Proof.
  induction blocks as [|b blocks IH]; [reflexivity|].
  cbn [fmap list_fmap mapM]. cbn [fmap list_fmap] in IH. rewrite IH.
  reflexivity.
Qed.

Lemma mapM_expandScope_inv (scopes out : list value) :
  mapM expandScope scopes = Returns out →
  ∃ blocks, scopes = VMap <$> blocks ∧ out = wireOfBlock <$> blocks.
Proof.
  revert out. induction scopes as [|v scopes IH]; intros out H.
  - injection H as <-. by exists [].
  - cbn [mapM] in H. destruct v as [| | | | |b]; try discriminate H.
    cbn [expandScope asMap mbind outcome_bind] in H.
    destruct (mapM expandScope scopes) as [rest|] eqn:Hrest; [|discriminate H].
    destruct (IH rest eq_refl) as (blocks & -> & ->).
    injection H as <-. by exists (b :: blocks).
Qed.

(** X4.  [expandSettings] returns exactly when the settings attribute is a
    list whose first element is a map with a [scope] list of maps (it
    panics on an empty list, on a missing [scope] and on any other kind of
    value).  The payload then has one entry per scope block, in order, each
    built from the three schema keys of its block with nil for a key the
    block lacks; elements of the settings list after the first are not
    looked at. *)
Theorem expandSettings_returns_iff (d : ResourceData) (v : value) :
  expandSettings d = Returns v
  ↔ ∃ blocks,
      walkable (Get d SchemaSettings) blocks
      ∧ v = VMap {[ SchemaScope := VSlice (wireOfBlock <$> blocks) ]}.
Proof.
  unfold expandSettings, walkable. split.
  - intros H. destruct (Get d SchemaSettings) as [| | | |l|]; try discriminate H.
    cbn [asSlice mbind outcome_bind] in H.
    destruct l as [|first others]; [discriminate H|].
    cbn [index lookup list_lookup mbind outcome_bind] in H.
    destruct first as [| | | | |m]; try discriminate H.
    cbn [asMap mbind outcome_bind] in H. unfold mapIndex in H.
    destruct (m !! SchemaScope) as [[| | | |sc|]|] eqn:Hsc;
      cbn [default from_option id asSlice mbind outcome_bind] in H;
      try discriminate H.
    destruct (mapM expandScope sc) as [out|] eqn:Hout;
      cbn [mbind outcome_bind] in H; [|discriminate H].
    destruct (mapM_expandScope_inv _ _ Hout) as (blocks & -> & ->).
    injection H as <-. exists blocks. split; [|reflexivity]. by exists m, others.
  - intros (blocks & (first & others & -> & Hsc) & ->).
    cbn [asSlice index lookup list_lookup asMap mbind outcome_bind].
    unfold mapIndex. rewrite Hsc.
    cbn [default from_option id asSlice mbind outcome_bind].
    rewrite mapM_expandScope_blocks. reflexivity.
Qed.

End ExpandMore.

Section DecodeMore.

Import Branchpolicy Schema Policy Shapes Json.

Lemma lex_number_first (s acc : string) (ns : numstate) (ts : list token) :
  lex (LNum acc ns) s = Some ts → ∃ lit ts', ts = TNum lit :: ts'.
Proof.
  revert acc ns ts. induction s as [|c s IH]; intros acc ns ts H.
  - cbn [lex lex_end] in H. destruct (num_final ns); [|discriminate H].
    injection H as <-. by eexists _, _.
  - cbn [lex lex_step] in H. destruct (num_step ns c) as [ns'|].
    + cbn [mbind option_bind] in H.
      destruct (lex (LNum (String c acc) ns') s) as [more|] eqn:Hmore;
        [|discriminate H].
      cbn [mbind option_bind] in H. injection H as <-.
      by apply (IH _ _ _ Hmore).
    + destruct (num_final ns); [|discriminate H].
      destruct (start c) as [[toks st']|]; [|discriminate H].
      cbn [mbind option_bind] in H.
      destruct (lex st' s) as [more|]; [|discriminate H].
      cbn [mbind option_bind] in H. injection H as <-. by eexists _, _.
Qed.

(** A text that begins like a number is, when it is JSON at all, a
    number. *)
Lemma parse_number_text (c : ascii) (rest : string) (ns : numstate)
  (j : json) :
  start c = Some ([], LNum (String c "") ns) →
  parse (String c rest) = Some j → isNumber j.
Proof.
  intros Hstart H. unfold parse in H. cbn [lex lex_step] in H.
  rewrite Hstart in H. cbn [mbind option_bind] in H.
  destruct (lex (LNum (String c "") ns) rest) as [more|] eqn:Hmore;
    [|discriminate H].
  destruct (lex_number_first _ _ _ _ Hmore) as (lit & ts' & ->).
  cbn [mbind option_bind app parse_tokens parse_step begin_value push_value] in H.
  destruct ts' as [|t ts']; [injection H as <-; by exists lit|].
  cbn [parse_tokens] in H. by destruct t.
Qed.

Lemma Itoa_begins_number (n : Z) :
  ∃ c rest ns,
    Strconv.Itoa n = String c rest ∧ start c = Some ([], LNum (String c "") ns).
Proof.
  unfold Strconv.Itoa. destruct n as [|p|p].
  - by eexists _, _, _.
  - cbn [Z.to_int NilZero.string_of_int].
    pose proof (DecimalPos.Unsigned.to_uint_nonnil p) as Hnil.
    destruct (Pos.to_uint p); [done|..]; by eexists _, _, _.
  - by eexists _, _, _.
Qed.

Lemma last_push (f : frame) (stk : list frame) (items : list json) :
  last stk = Some (FArr items) → last (f :: stk) = Some (FArr items).
Proof. by destruct stk. Qed.

Lemma push_value_readsArray (j : json) (stk : list frame) (items : list json)
  (st' : pstate) (stk' : list frame) :
  last stk = Some (FArr items) →
  push_value j stk = Some (st', stk') → readsArray st' stk'.
Proof.
  intros Hlast H. destruct stk as [|[its|ms|ms key] rest]; try discriminate.
  - injection H as <- <-. cbn [readsArray].
    destruct rest; [by eexists|]. by exists items.
  - injection H as <- <-. cbn [readsArray].
    destruct rest; [discriminate|]. by exists items.
Qed.

Lemma close_readsArray (j : json) (top : frame) (rest : list frame)
  (items : list json) (st' : pstate) (stk' : list frame) :
  last (top :: rest) = Some (FArr items) →
  (rest = [] → isArray j) →
  push_value j rest = Some (st', stk') → readsArray st' stk'.
Proof.
  intros Hlast Hj H. destruct rest as [|f rest].
  - injection H as <- <-. by split; [|apply Hj].
  - by apply (push_value_readsArray j (f :: rest) items).
Qed.

(** One token keeps the invariant of a text that opens with an array. *)
Lemma readsArray_step (st st' : pstate) (stk stk' : list frame) (t : token) :
  readsArray st stk →
  parse_step st stk t = Some (st', stk') → readsArray st' stk'.
Proof.
  intros Hinv H.
  destruct st; cbn [readsArray] in Hinv;
    try (destruct Hinv as [-> _]; by destruct t);
    destruct Hinv as [items Hlast];
    destruct t; destruct stk as [|[its|ms|ms ky] rest];
    cbn [parse_step begin_value] in H; try discriminate H;
    try (by apply (push_value_readsArray _ _ items _ _ Hlast H));
    try (injection H as <- <-; cbn [readsArray]; exists items;
         by (apply last_push || exact Hlast));
    try (apply (close_readsArray _ _ _ items _ _ Hlast) in H; [done|];
         intros ->; (discriminate Hlast || by eexists)).
  all: injection H as <- <-; cbn [readsArray]; exists items; by destruct rest.
Qed.

Lemma readsArray_parse (ts : list token) (st : pstate) (stk : list frame)
  (j : json) :
  readsArray st stk → parse_tokens st stk ts = Some j → isArray j.
Proof.
  revert st stk. induction ts as [|t ts IH]; intros st stk Hinv H.
  - cbn [parse_tokens] in H. destruct st; try discriminate H.
    injection H as <-. by destruct Hinv.
  - cbn [parse_tokens] in H.
    destruct (parse_step st stk t) as [[st' stk']|] eqn:Hstep; [|discriminate H].
    cbn [mbind option_bind] in H.
    by apply (IH st' stk' (readsArray_step _ _ _ _ _ Hinv Hstep)).
Qed.

(** A text that begins with an opening bracket is, when it is JSON at
    all, an array. *)
Lemma parse_bracket_text (rest : string) (j : json) :
  parse (String "[" rest) = Some j → isArray j.
Proof.
  intros H. unfold parse in H. cbn [lex] in H.
  change (lex_step LStart "[") with (Some ([TLBrack], LStart)) in H.
  cbn [mbind option_bind] in H.
  destruct (lex LStart rest) as [more|]; [|discriminate H].
  cbn [mbind option_bind app parse_tokens] in H.
  change (parse_step SValue [] TLBrack) with (Some (SArrFirst, [FArr []])) in H.
  cbn [mbind option_bind] in H.
  apply (readsArray_parse more SArrFirst [FArr []] j); [|exact H].
  by exists [].
Qed.

Lemma decode_settings_not_object (j : json) (v : commonPolicySettings) :
  (∀ members, j ≠ JObject members) → (decode_settings j v).1 = v.
Proof. intros H. destruct j; try reflexivity. by destruct (H members). Qed.

Lemma Unmarshal_not_object (data : string) (v : commonPolicySettings) :
  (∀ j, parse data = Some j → ∀ members, j ≠ JObject members) →
  (Unmarshal data v).1 = v.
Proof.
  intros H. unfold Unmarshal. destruct (parse data) as [j|]; [|reflexivity].
  pose proof (decode_settings_not_object j v (H j eq_refl)) as Hd.
  by destruct (decode_settings j v).
Qed.

(** The [%v] text of a value that is not a string never decodes to an
    object. *)
Lemma Sprintf_v_not_object (v : value) (j : json) :
  (∀ s, v ≠ VString s) →
  parse (Fmt.Sprintf_v v) = Some j → ∀ members, j ≠ JObject members.
Proof.
  intros Hv H members ->. destruct v as [|b|n|s|l|m].
  - discriminate H.
  - by destruct b.
  - destruct (Itoa_begins_number n) as (c & rest & ns & Htext & Hstart).
    cbn [Fmt.Sprintf_v] in H. rewrite Htext in H.
    by destruct (parse_number_text c rest ns _ Hstart H).
  - by destruct (Hv s).
  - by destruct (parse_bracket_text _ _ H).
  - destruct (Sprintf_v_map m) as [rest Hrest]. rewrite Hrest in H.
    discriminate H.
Qed.

(** X5.  Only a payload that is a Go string can decode to scopes: for
    nil, a boolean, an integer, a slice or a map as the settings payload
    (the remote client hands over a map), [flattenSettings] returns the
    wrapper around an empty scope list. *)
Theorem flattenSettings_decodes_strings_only (d : ResourceData)
  (pc : PolicyConfiguration) :
  (∀ s, Settings pc ≠ VString s) →
  flattenSettings d (Some pc)
  = Returns (VSlice [ VMap {[ SchemaScope := VSlice [] ]} ]).
Proof.
  intros Hv. rewrite flattenSettings_unfold.
  rewrite Unmarshal_not_object; [reflexivity|].
  intros j Hj. by apply (Sprintf_v_not_object (Settings pc)).
Qed.

Lemma flattenSettings_decodes_strings_only_witness :
  flattenSettings (Samples.importState "x")
    (Some {| Policy.Id := Some 1; IsEnabled := None; IsBlocking := None;
             Policy.Type_ := None;
             Settings := VSlice [VInt (-12); VBool true; VNil] |})
  = Returns (VSlice [ VMap {[ SchemaScope := VSlice [] ]} ]).
Proof.
  apply (flattenSettings_decodes_strings_only (Samples.importState "x")
           {| Policy.Id := Some 1; IsEnabled := None; IsBlocking := None;
              Policy.Type_ := None;
              Settings := VSlice [VInt (-12); VBool true; VNil] |}).
  intros s. cbn [Settings]. discriminate.
Defined.

End DecodeMore.

(** Case analysis on everything an operation branches on. *)
Ltac split_outcomes H :=
  unfold mbind, outcome_bind in H;
  repeat (case_match; try discriminate H);
  simplify_eq.

Section PolicyLifecycle.

Import Branchpolicy Schema Policy Format DecimalText GoStrings.

Variable Quote : string → string.
Context {R : Type}.



(** The read operation when the identifier parses and the fetch
    succeeds: the flatten callback gets the fetched configuration and the
    project. *)
Lemma genPolicyReadFunc_fetched (crudArgs : PolicyCrudArgs) (d : ResourceData)
  (m : Config.AggregatedClient R) (r r' : R) (projectID : string)
  (policyID : Z) (policyConfig : option PolicyConfiguration) :
  Get d SchemaProjectID = VString projectID →
  Strconv.Atoi (Schema.Id d) = (policyID, None) →
  GetPolicyConfiguration (Config.PolicyClient m)
    (Some projectID) (Some policyID) r = (policyConfig, None, r') →
  genPolicyReadFunc Quote crudArgs d m r
  = (d' ← FlattenFunc crudArgs d policyConfig (Some projectID);
     Returns (d', r', None)).
Proof.
  intros Hproj Hid Hget. unfold genPolicyReadFunc. rewrite Hproj.
  cbn [asString mbind outcome_bind]. rewrite Hid, Hget. reflexivity.
Qed.

(** X6.  The outcomes of [BaseExpandFunc].  When it returns, the project,
    enabled and blocking attributes were read at their types and the
    settings were walked, and one of three holds: the identifier is empty
    and the configuration has no ID; the identifier parses and the
    configuration has that ID; or the identifier is not empty and does not
    parse, and then an error comes back with no configuration and no
    project.  A configuration always carries the given policy type. *)
Theorem BaseExpandFunc_outcomes (d : ResourceData) (typeID : UUID)
  (policyConfig : option PolicyConfiguration) (projectID : option string)
  (err : option goerror) :
  BaseExpandFunc Quote d typeID = Returns (policyConfig, projectID, err) →
  Outcomes.expandOutcome Quote d typeID policyConfig projectID err.
Proof.
  unfold BaseExpandFunc, Outcomes.expandOutcome. intros H.
  destruct (Get d SchemaProjectID) as [| | |p| |]; try discriminate H.
  destruct (Get d SchemaEnabled) as [|enabled| | | |]; try discriminate H.
  destruct (Get d SchemaBlocking) as [|blocking| | | |]; try discriminate H.
  cbn [asString asBool mbind outcome_bind] in H.
  destruct (expandSettings d) as [settings|]; [|discriminate H].
  cbn [mbind outcome_bind] in H.
  exists p, enabled, blocking, settings. repeat (split; [reflexivity|]).
  cbv zeta. destruct (decide (Schema.Id d = "")) as [Hid|Hid].
  - injection H as <- <- <-. by left.
  - destruct (Strconv.Atoi (Schema.Id d)) as [n [e|]] eqn:Hatoi.
    + injection H as <- <- <-. right. right. by exists n, e.
    + injection H as <- <- <-. right. left. by exists n.
Qed.


(** X8.  Read after create is consistent.  With [BaseFlattenFunc] as the
    flatten callback, when the remote create returns a configuration whose
    ID is an [int], create stores it; a read of the store it left then
    fetches by the project and that ID, and when the remote returns the same
    configuration the read leaves the store exactly as create left it. *)
Theorem create_then_read_consistent (crudArgs : PolicyCrudArgs)
  (d : ResourceData) (m : Config.AggregatedClient R) (r r1 r2 : R)
  (policyConfig : option PolicyConfiguration) (p : string)
  (created : PolicyConfiguration) (id : Z) :
  FlattenFunc crudArgs = BaseFlattenFunc →
  ExpandFunc crudArgs d (PolicyType crudArgs)
  = Returns (policyConfig, Some p, None) →
  CreatePolicyConfiguration (Config.PolicyClient m) policyConfig (Some p) r
  = (Some created, None, r1) →
  Policy.Id created = Some id →
  inIntRange id →
  GetPolicyConfiguration (Config.PolicyClient m) (Some p) (Some id) r1
  = (Some created, None, r2) →
  ∃ d1 : ResourceData,
    genPolicyCreateFunc crudArgs d m r = Returns (d1, r1, None)
    ∧ Schema.Id d1 = Strconv.Itoa id
    ∧ genPolicyReadFunc Quote crudArgs d1 m r1 = Returns (d1, r2, None).
Proof.
  intros Hflat Hexp Hcreate Hid Hrange Hget.
  destruct (BaseFlattenFunc d (Some created) (Some p)) as [d1|] eqn:Hd1;
    [|by rewrite (BaseFlattenFunc_unfold d created id) in Hd1].
  exists d1.
  pose proof Hd1 as Hd1'.
  rewrite (BaseFlattenFunc_unfold d created id) in Hd1' by done.
  injection Hd1' as Hd1'.
  assert (Hp : Get d1 SchemaProjectID = VString p).
  { rewrite <- Hd1'. rewrite !Get_Set_ne by done. by rewrite Get_Set_eq. }
  assert (Hi : Schema.Id d1 = Strconv.Itoa id) by (by rewrite <- Hd1').
  split; [|split; [exact Hi|]].
  - unfold genPolicyCreateFunc. rewrite Hexp. cbn [mbind outcome_bind].
    rewrite Hcreate, Hflat, Hd1. reflexivity.
  - rewrite (genPolicyReadFunc_fetched crudArgs d1 m r1 r2 p id (Some created));
      [|done|by rewrite Hi, Atoi_Itoa|done].
    rewrite Hflat, (BaseFlattenFunc_again d d1 _ _ Hd1). reflexivity.
Qed.

(** X9.  Read rejects an identifier that does not parse as an integer: it
    returns an error and makes no remote call, and the attribute store is
    left as it was. *)
Theorem read_rejects_bad_id (crudArgs : PolicyCrudArgs) (d : ResourceData)
  (m : Config.AggregatedClient R) (r : R) (projectID : string)
  (n : Z) (e : Strconv.NumError) :
  Get d SchemaProjectID = VString projectID →
  Strconv.Atoi (Schema.Id d) = (n, Some e) →
  genPolicyReadFunc Quote crudArgs d m r
  = Returns (d, r,
             Some (Fmt.Errorf ("Error converting policy ID to an integer: ("
                               +:+ Strconv.NumErrorText Quote e +:+ ")"))).
Proof.
  intros Hproj Hid. unfold genPolicyReadFunc. rewrite Hproj.
  cbn [asString mbind outcome_bind]. by rewrite Hid.
Qed.

(** X10.  An error of the expand callback ends create, update and delete
    at once: each returns that very error, unwrapped, makes no remote call
    and leaves the attribute store as it was. *)
Theorem expand_error_stops_operation (crudArgs : PolicyCrudArgs)
  (d : ResourceData) (m : Config.AggregatedClient R) (r : R)
  (policyConfig : option PolicyConfiguration) (projectID : option string)
  (e : goerror) :
  ExpandFunc crudArgs d (PolicyType crudArgs)
  = Returns (policyConfig, projectID, Some e) →
  genPolicyCreateFunc crudArgs d m r = Returns (d, r, Some e)
  ∧ genPolicyUpdateFunc crudArgs d m r = Returns (d, r, Some e)
  ∧ genPolicyDeleteFunc crudArgs d m r = Returns (d, r, Some e).
Proof.
  intros H. unfold genPolicyCreateFunc, genPolicyUpdateFunc, genPolicyDeleteFunc.
  rewrite H. by cbn [mbind outcome_bind].
Qed.


(** X12.  Delete never touches the attribute store: keyed by the ID of the
    expanded configuration and the project, it returns nil when the remote
    delete succeeds and the remote text behind "Error deleting policy in
    Azure DevOps: " when it fails, with the store as it was in both
    cases. *)
Theorem delete_outcomes (crudArgs : PolicyCrudArgs) (d : ResourceData)
  (m : Config.AggregatedClient R) (r r' : R) (pc : PolicyConfiguration)
  (projectID : option string) (err : option goerror) :
  ExpandFunc crudArgs d (PolicyType crudArgs)
  = Returns (Some pc, projectID, None) →
  DeletePolicyConfiguration (Config.PolicyClient m)
    (Policy.Id pc) projectID r = (err, r') →
  genPolicyDeleteFunc crudArgs d m r
  = Returns (d, r',
             (λ e, Fmt.Errorf ("Error deleting policy in Azure DevOps: "
                               +:+ Error e)) <$> err).
Proof.
  intros Hexp Hdel. unfold genPolicyDeleteFunc. rewrite Hexp.
  cbn [deref mbind outcome_bind]. rewrite Hdel. by destruct err.
Qed.

(** X13.  Read after import fetches what was imported: for an import ID
    that has the format [project/id], the read of the store that the
    importer left asks the remote for that project and the integer that the
    ID part spells. *)
Theorem read_after_import (crudArgs : PolicyCrudArgs) (d : ResourceData)
  (m : Config.AggregatedClient R) (r r' : R) (project policyID : string)
  (n : Z) (policyConfig : option PolicyConfiguration) :
  Schema.Id d = project +:+ "/" +:+ policyID →
  contains project "/" = false →
  project ≠ "" → policyID ≠ "" →
  Strconv.Atoi policyID = (n, None) →
  GetPolicyConfiguration (Config.PolicyClient m) (Some project) (Some n) r
  = (policyConfig, None, r') →
  ∃ d1 : ResourceData,
    genPolicyImporter d = (d1, (Some [d1], None))
    ∧ genPolicyReadFunc Quote crudArgs d1 m r
      = (d' ← FlattenFunc crudArgs d1 policyConfig (Some project);
         Returns (d', r', None)).
Proof.
  intros Hid Hslash Hp Hi Hatoi Hget. eexists. split.
  - apply (genPolicyImporter_ok d project policyID); try done.
    by rewrite Hatoi.
  - apply (genPolicyReadFunc_fetched _ _ m r r' project n); [|done|done].
    unfold Get, SetId, Set_, mapIndex; cbn. by rewrite lookup_insert_eq.
Qed.

End PolicyLifecycle.

Section ImportMore.

Import Branchpolicy Schema Format GoStrings.

(** X14.  A successful import loses nothing of the ID and touches nothing
    else: the one resource returned is the store itself, the project
    attribute and the new identifier joined by [/] spell the imported ID,
    and every attribute other than the project is left as it was. *)
Theorem import_keeps_text_and_other_attributes (d d' : ResourceData)
  (l : list ResourceData) :
  genPolicyImporter d = (d', (Some l, None)) →
  l = [d']
  ∧ (∃ p, Get d' SchemaProjectID = VString p
          ∧ p +:+ "/" +:+ Schema.Id d' = Schema.Id d)
  ∧ ∀ k, k ≠ SchemaProjectID → Get d' k = Get d k.
Proof.
  intros H. destruct (genPolicyImporter_cases d) as [(e & He & _)|Hwf].
  - rewrite He in H. discriminate H.
  - destruct Hwf as (project & policyID & Hid & Hslash & Hp & Hi & Hatoi).
    rewrite (genPolicyImporter_ok d project policyID) in H by done.
    injection H as <- <-. split; [reflexivity|split].
    + exists project. split; [|by rewrite Hid].
      unfold Get, SetId, Set_, mapIndex; cbn. by rewrite lookup_insert_eq.
    + intros k Hk. unfold Get, SetId, Set_, mapIndex; cbn.
      by rewrite lookup_insert_ne.
Qed.

End ImportMore.

Section AgentPoolMore.

Import Azuredevops Schema Taskagent DecimalText.

Variable Quote : string → string.
Context {R : Type}.

(** [expandAgentPool] on a store whose attributes have their types. *)
Lemma expandAgentPool_typed (d : ResourceData) (forCreate : bool)
  (poolType name : string) (autoProvision : bool) :
  Get d "pool_type" = VString poolType →
  Get d "name" = VString name →
  Get d "auto_provision" = VBool autoProvision →
  expandAgentPool Quote d forCreate
  = match negb forCreate, (Strconv.Atoi (Schema.Id d)).2 with
    | true, Some e =>
        Returns (None,
                 Some (Fmt.Errorf ("Error getting agent pool Id: "
                                   +:+ Strconv.NumErrorText Quote e)))
    | _, _ =>
        Returns (Some {| Taskagent.Id := Some (Strconv.Atoi (Schema.Id d)).1;
                         Name := Some name;
                         PoolType := Some poolType;
                         AutoProvision := Some autoProvision |},
                 None)
    end.
Proof.
  intros Ht Hn Ha. unfold expandAgentPool.
  destruct (Strconv.Atoi (Schema.Id d)) as [n err].
  rewrite Ht, Hn, Ha. by destruct forCreate, err.
Qed.

Lemma flattenAzureAgentPool_unfold (d : ResourceData) (pool : TaskAgentPool)
  (id : Z) :
  Taskagent.Id pool = Some id →
  flattenAzureAgentPool d (Some pool)
  = Returns
      (Set_ "auto_provision" (boolPtrValue (AutoProvision pool))
         (Set_ "pool_type" (stringPtrValue (PoolType pool))
            (Set_ "name" (VString (Converter.ToString (Name pool) ""))
               (SetId (Strconv.Itoa id) d)))).
Proof.
  intros Hid. unfold flattenAzureAgentPool. cbn [deref mbind outcome_bind].
  by rewrite Hid.
Qed.

Lemma flattenAzureAgentPool_again (d d' : ResourceData)
  (agentPool : option TaskAgentPool) :
  flattenAzureAgentPool d agentPool = Returns d' →
  flattenAzureAgentPool d' agentPool = Returns d'.
Proof.
  intros H. destruct agentPool as [pool|]; [|discriminate H].
  destruct (Taskagent.Id pool) as [id|] eqn:Hid;
    [|unfold flattenAzureAgentPool in H; cbn [deref mbind outcome_bind] in H;
      rewrite Hid in H; discriminate H].
  rewrite (flattenAzureAgentPool_unfold _ pool id) in H by done.
  rewrite (flattenAzureAgentPool_unfold _ pool id) by done.
  injection H as <-. f_equal. apply ResourceData_eq; [reflexivity|].
  intros k. unfold Set_, SetId; cbn.
  rewrite !lookup_insert. by repeat case_decide.
Qed.

Lemma resourceAzureAgentPoolRead_fetched (d : ResourceData)
  (meta : Config.AggregatedClient R) (r r' : R) (poolID : Z)
  (agentPool : option TaskAgentPool) :
  Strconv.Atoi (Schema.Id d) = (poolID, None) →
  GetAgentPool (Config.TaskAgentClient meta) (Some poolID) r
  = (agentPool, None, r') →
  resourceAzureAgentPoolRead Quote d meta r
  = (d' ← flattenAzureAgentPool d agentPool; Returns (d', r', None)).
Proof.
  intros Hid Hget. unfold resourceAzureAgentPoolRead, azureAgentPoolRead.
  by rewrite Hid, Hget.
Qed.

(** X15.  Expanding what was flattened gives the pool back: after
    [flattenAzureAgentPool] stored a pool whose ID is an [int] and whose
    type and auto-provision flag are set, [expandAgentPool] for an update
    returns no error and a pool with that ID, type and flag, and with the
    name that was stored (the empty name where the remote had none). *)
Theorem agent_pool_expand_after_flatten (d d' : ResourceData)
  (pool : TaskAgentPool) (id : Z) (poolType : string) (autoProvision : bool) :
  inIntRange id →
  Taskagent.Id pool = Some id →
  PoolType pool = Some poolType →
  AutoProvision pool = Some autoProvision →
  flattenAzureAgentPool d (Some pool) = Returns d' →
  expandAgentPool Quote d' false
  = Returns (Some {| Taskagent.Id := Some id;
                     Name := Some (match Name pool with
                                   | Some n => n
                                   | None => ""
                                   end);
                     PoolType := Some poolType;
                     AutoProvision := Some autoProvision |},
             None).
Proof.
  intros Hrange Hid Ht Ha H.
  rewrite (flattenAzureAgentPool_unfold d pool id) in H by done.
  injection H as <-. rewrite Ht, Ha. cbn [stringPtrValue boolPtrValue].
  rewrite (expandAgentPool_typed _ false poolType
             (Converter.ToString (Name pool) "") autoProvision).
  - cbn [Schema.Id Set_ SetId rd_id]. rewrite (Atoi_Itoa id Hrange).
    cbn. by destruct (Name pool).
  - rewrite Get_Set_ne by done. by rewrite Get_Set_eq.
  - rewrite !Get_Set_ne by done. by rewrite Get_Set_eq.
  - by rewrite Get_Set_eq.
Qed.

(** X16.  Expanding for a create takes any identifier: with the
    attributes at their types [expandAgentPool] returns no error, whatever
    the identifier is, and the pool carries the integer that [Atoi] gave
    for it, 0 for the empty identifier of a resource not yet created. *)
Theorem agent_pool_expand_for_create (d : ResourceData)
  (poolType name : string) (autoProvision : bool) :
  Get d "pool_type" = VString poolType →
  Get d "name" = VString name →
  Get d "auto_provision" = VBool autoProvision →
  expandAgentPool Quote d true
  = Returns (Some {| Taskagent.Id := Some (Strconv.Atoi (Schema.Id d)).1;
                     Name := Some name;
                     PoolType := Some poolType;
                     AutoProvision := Some autoProvision |},
             None)
  ∧ (Schema.Id d = "" → (Strconv.Atoi (Schema.Id d)).1 = 0).
Proof.
  intros Ht Hn Ha. split.
  - by rewrite (expandAgentPool_typed d true poolType name autoProvision).
  - by intros ->.
Qed.

(** X17.  Agent-pool update sends the name, type and flag of the store
    under the parsed identifier, with no ID inside the pool.  When the
    remote update fails the operation returns the remote text behind
    "Error updating agent pool in Azure DevOps: " and leaves the store as
    it was; when it succeeds the pool it returned is dropped and the
    operation is a read of the store from the remote state that the update
    left. *)
Theorem agent_pool_update_flow (d : ResourceData)
  (meta : Config.AggregatedClient R) (r r1 : R) (poolID : Z)
  (poolType name : string) (autoProvision : bool)
  (updated : option TaskAgentPool) (err : option goerror) :
  Get d "pool_type" = VString poolType →
  Get d "name" = VString name →
  Get d "auto_provision" = VBool autoProvision →
  Strconv.Atoi (Schema.Id d) = (poolID, None) →
  UpdateAgentPool (Config.TaskAgentClient meta) (Some poolID)
    (Some {| Taskagent.Id := None; Name := Some name;
             PoolType := Some poolType;
             AutoProvision := Some autoProvision |}) r
  = (updated, err, r1) →
  resourceAzureAgentPoolUpdate Quote d meta r
  = match err with
    | Some e =>
        Returns (d, r1,
                 Some (Fmt.Errorf ("Error updating agent pool in Azure DevOps: "
                                   +:+ Error e)))
    | None => resourceAzureAgentPoolRead Quote d meta r1
    end.
Proof.
  intros Ht Hn Ha Hid Hupd. unfold resourceAzureAgentPoolUpdate.
  rewrite (expandAgentPool_typed d false poolType name autoProvision) by done.
  rewrite Hid. cbn [negb snd fst mbind outcome_bind].
  unfold azureAgentPoolUpdate.
  cbn [deref mbind outcome_bind Taskagent.Id Name PoolType AutoProvision].
  rewrite Hupd. by destruct err.
Qed.

(** X18.  Agent-pool create, then its own read.  When the remote add
    returns a pool whose ID is an [int], create stores it and reads it
    back by that ID; when the remote returns the same pool again, create
    returns no error and the store holds the decimal text of the ID. *)
Theorem agent_pool_create_then_read (d : ResourceData)
  (meta : Config.AggregatedClient R) (r r1 r2 : R)
  (poolType name : string) (autoProvision : bool)
  (created : TaskAgentPool) (id : Z) :
  Get d "pool_type" = VString poolType →
  Get d "name" = VString name →
  Get d "auto_provision" = VBool autoProvision →
  AddAgentPool (Config.TaskAgentClient meta)
    (Some {| Taskagent.Id := Some (Strconv.Atoi (Schema.Id d)).1;
             Name := Some name; PoolType := Some poolType;
             AutoProvision := Some autoProvision |}) r
  = (Some created, None, r1) →
  Taskagent.Id created = Some id →
  inIntRange id →
  GetAgentPool (Config.TaskAgentClient meta) (Some id) r1
  = (Some created, None, r2) →
  ∃ d1 : ResourceData,
    flattenAzureAgentPool d (Some created) = Returns d1
    ∧ resourceAzureAgentPoolCreate Quote d meta r = Returns (d1, r2, None)
    ∧ Schema.Id d1 = Strconv.Itoa id.
Proof.
  intros Ht Hn Ha Hadd Hid Hrange Hget.
  destruct (flattenAzureAgentPool d (Some created)) as [d1|] eqn:Hd1;
    [|by rewrite (flattenAzureAgentPool_unfold d created id) in Hd1].
  exists d1.
  assert (Hi : Schema.Id d1 = Strconv.Itoa id).
  { rewrite (flattenAzureAgentPool_unfold d created id) in Hd1 by done.
    by injection Hd1 as <-. }
  split; [reflexivity|split; [|exact Hi]].
  unfold resourceAzureAgentPoolCreate.
  rewrite (expandAgentPool_typed d true poolType name autoProvision) by done.
  cbn [negb mbind outcome_bind]. unfold createAzureAgentPool.
  rewrite Hadd, Hd1. cbn [mbind outcome_bind].
  rewrite (resourceAzureAgentPoolRead_fetched d1 meta r1 r2 id (Some created));
    [|by rewrite Hi, Atoi_Itoa|done].
  by rewrite (flattenAzureAgentPool_again d d1 _ Hd1).
Qed.

(** X19.  Agent-pool create assigns no identity when the remote add
    fails: it returns the remote text behind "Error creating agent pool in
    Azure DevOps: ", makes no further remote call and leaves the store as
    it was. *)
Theorem agent_pool_create_failure (d : ResourceData)
  (meta : Config.AggregatedClient R) (r r1 : R)
  (poolType name : string) (autoProvision : bool)
  (created : option TaskAgentPool) (e : goerror) :
  Get d "pool_type" = VString poolType →
  Get d "name" = VString name →
  Get d "auto_provision" = VBool autoProvision →
  AddAgentPool (Config.TaskAgentClient meta)
    (Some {| Taskagent.Id := Some (Strconv.Atoi (Schema.Id d)).1;
             Name := Some name; PoolType := Some poolType;
             AutoProvision := Some autoProvision |}) r
  = (created, Some e, r1) →
  resourceAzureAgentPoolCreate Quote d meta r
  = Returns (d, r1,
             Some (Fmt.Errorf ("Error creating agent pool in Azure DevOps: "
                               +:+ Error e))).
Proof.
  intros Ht Hn Ha Hadd. unfold resourceAzureAgentPoolCreate.
  rewrite (expandAgentPool_typed d true poolType name autoProvision) by done.
  cbn [negb mbind outcome_bind]. unfold createAzureAgentPool.
  by rewrite Hadd.
Qed.

(** X20.  Agent-pool delete always returns and never changes the store.
    On an identifier that does not parse it makes no remote call and
    returns an error; otherwise it calls the remote delete with the parsed
    identifier and returns the remote error as it is, nil included. *)
Theorem agent_pool_delete_outcomes (d : ResourceData)
  (meta : Config.AggregatedClient R) (r : R) :
  ∃ (r' : R) (err : option goerror),
    resourceAzureAgentPoolDelete Quote d meta r = Returns (d, r', err)
    ∧ (∀ e, (Strconv.Atoi (Schema.Id d)).2 = Some e →
            r' = r
            ∧ err = Some (Fmt.Errorf ("Error getting agent pool Id: "
                                      +:+ Strconv.NumErrorText Quote e)))
    ∧ (∀ n, Strconv.Atoi (Schema.Id d) = (n, None) →
            DeleteAgentPool (Config.TaskAgentClient meta) (Some n) r
            = (err, r')).
Proof.
  unfold resourceAzureAgentPoolDelete.
  destruct (Strconv.Atoi (Schema.Id d)) as [n [e|]] eqn:Hatoi.
  - eexists _, _. split; [reflexivity|]. split.
    + by intros e' [= <-].
    + by intros n' [=].
  - destruct (DeleteAgentPool (Config.TaskAgentClient meta) (Some n) r)
      as [err r'] eqn:Hdel.
    exists r', err. split; [reflexivity|]. split.
    + by intros e [=].
    + by intros n' [= <-].
Qed.

(** X21.  Agent-pool read rejects an identifier that does not parse as an
    integer: it returns an error, makes no remote call and leaves the
    store as it was. *)
Theorem agent_pool_read_rejects_bad_id (d : ResourceData)
  (meta : Config.AggregatedClient R) (r : R) (n : Z) (e : Strconv.NumError) :
  Strconv.Atoi (Schema.Id d) = (n, Some e) →
  resourceAzureAgentPoolRead Quote d meta r
  = Returns (d, r,
             Some (Fmt.Errorf ("Error getting agent pool Id: "
                               +:+ Strconv.NumErrorText Quote e))).
Proof. intros Hid. unfold resourceAzureAgentPoolRead. by rewrite Hid. Qed.

(** X22.  What a successful agent-pool read writes: the identifier
    becomes the decimal text of the ID of the pool that the remote returned,
    the name attribute its name (the empty string where it has none), and
    every attribute other than name, pool type and auto-provision is left
    as it was. *)
Theorem agent_pool_read_stores_pool (d : ResourceData)
  (meta : Config.AggregatedClient R) (r r' : R) (poolID id : Z)
  (pool : TaskAgentPool) :
  Strconv.Atoi (Schema.Id d) = (poolID, None) →
  GetAgentPool (Config.TaskAgentClient meta) (Some poolID) r
  = (Some pool, None, r') →
  Taskagent.Id pool = Some id →
  ∃ d' : ResourceData,
    resourceAzureAgentPoolRead Quote d meta r = Returns (d', r', None)
    ∧ Schema.Id d' = Strconv.Itoa id
    ∧ Get d' "name"
      = VString (match Name pool with Some n => n | None => "" end)
    ∧ ∀ k, k ≠ "name" → k ≠ "pool_type" → k ≠ "auto_provision" →
           Get d' k = Get d k.
Proof.
  intros Hid Hget Hpool. eexists. split; [|split; [|split]].
  - rewrite (resourceAzureAgentPoolRead_fetched d meta r r' poolID (Some pool))
      by done.
    by rewrite (flattenAzureAgentPool_unfold d pool id).
  - reflexivity.
  - rewrite !Get_Set_ne by done. rewrite Get_Set_eq. by destruct (Name pool).
  - intros k H1 H2 H3. by rewrite !Get_Set_ne.
Qed.

(** X23.  An agent-pool read, update or delete that returns an error has
    not changed the attribute store, whatever the remote client is. *)
Theorem agent_pool_error_leaves_store (d d' : ResourceData)
  (meta : Config.AggregatedClient R) (r r' : R) (e : goerror) :
  (resourceAzureAgentPoolRead Quote d meta r = Returns (d', r', Some e)
   → d' = d)
  ∧ (resourceAzureAgentPoolUpdate Quote d meta r = Returns (d', r', Some e)
     → d' = d)
  ∧ (resourceAzureAgentPoolDelete Quote d meta r = Returns (d', r', Some e)
     → d' = d).
Proof.
  assert (Hread : ∀ r0, resourceAzureAgentPoolRead Quote d meta r0
                        = Returns (d', r', Some e) → d' = d).
  { intros r0 H. unfold resourceAzureAgentPoolRead, azureAgentPoolRead in H.
    split_outcomes H. all: done. }
  repeat split; intros H.
  - by apply (Hread r).
  - unfold resourceAzureAgentPoolUpdate, azureAgentPoolUpdate in H.
    unfold mbind, outcome_bind in H.
    repeat (case_match; try discriminate H); simplify_eq; try done.
    all: by eapply Hread.
  - unfold resourceAzureAgentPoolDelete in H. split_outcomes H. all: done.
Qed.

(** X24.  Agent-pool create can fail after it assigned the identity: when
    the remote add returns a pool whose ID is an [int] and the read-back of
    that ID fails, create returns the error of the read, and the store it
    leaves holds the new identifier all the same. *)
Theorem agent_pool_create_readback_failure (d : ResourceData)
  (meta : Config.AggregatedClient R) (r r1 r2 : R)
  (poolType name : string) (autoProvision : bool)
  (created : TaskAgentPool) (id : Z) (fetched : option TaskAgentPool)
  (e : goerror) :
  Get d "pool_type" = VString poolType →
  Get d "name" = VString name →
  Get d "auto_provision" = VBool autoProvision →
  AddAgentPool (Config.TaskAgentClient meta)
    (Some {| Taskagent.Id := Some (Strconv.Atoi (Schema.Id d)).1;
             Name := Some name; PoolType := Some poolType;
             AutoProvision := Some autoProvision |}) r
  = (Some created, None, r1) →
  Taskagent.Id created = Some id →
  inIntRange id →
  GetAgentPool (Config.TaskAgentClient meta) (Some id) r1
  = (fetched, Some e, r2) →
  ∃ d1 : ResourceData,
    flattenAzureAgentPool d (Some created) = Returns d1
    ∧ resourceAzureAgentPoolCreate Quote d meta r
      = Returns (d1, r2,
                 Some (Fmt.Errorf ("Error looking up agent pool with ID "
                                   +:+ Strconv.Itoa id +:+ ". Error: "
                                   +:+ Error e)))
    ∧ Schema.Id d1 = Strconv.Itoa id.
Proof.
  intros Ht Hn Ha Hadd Hid Hrange Hget.
  destruct (flattenAzureAgentPool d (Some created)) as [d1|] eqn:Hd1;
    [|by rewrite (flattenAzureAgentPool_unfold d created id) in Hd1].
  exists d1.
  assert (Hi : Schema.Id d1 = Strconv.Itoa id).
  { rewrite (flattenAzureAgentPool_unfold d created id) in Hd1 by done.
    by injection Hd1 as <-. }
  split; [reflexivity|split; [|exact Hi]].
  unfold resourceAzureAgentPoolCreate.
  rewrite (expandAgentPool_typed d true poolType name autoProvision) by done.
  cbn [negb mbind outcome_bind]. unfold createAzureAgentPool.
  rewrite Hadd, Hd1. cbn [mbind outcome_bind].
  unfold resourceAzureAgentPoolRead, azureAgentPoolRead.
  by rewrite Hi, (Atoi_Itoa id Hrange), Hget.
Qed.

End AgentPoolMore.

Section MoreRuns.

Import Branchpolicy Azuredevops Schema Format DecimalText PolicySchema.

Lemma flatten_defaults_match_schema_witness :
  ∃ d' : ResourceData,
    BaseFlattenFunc (Samples.importState "x") (Some MoreSamples.remoteConfig)
      (Some "proj1") = Returns d'
    ∧ (Policy.IsEnabled MoreSamples.remoteConfig = None →
       genBaseSchema !! SchemaEnabled ≫= Default
       = Some (Get d' SchemaEnabled))
    ∧ (Policy.IsBlocking MoreSamples.remoteConfig = None →
       genBaseSchema !! SchemaBlocking ≫= Default
       = Some (Get d' SchemaBlocking)).
Proof.
  eexists. split; [vm_compute; reflexivity|].
  apply (flatten_defaults_match_schema (Samples.importState "x") _
           MoreSamples.remoteConfig (Some "proj1")).
  vm_compute; reflexivity.
Defined.

Lemma BaseExpandFunc_outcomes_witness :
  Outcomes.expandOutcome Scripted.quote
    (Samples.policyState "x7" Samples.twoScopes) MinReviewerCount None None
    (Some (Fmt.Errorf ("Error parsing policy configuration ID: ("
                       +:+ Strconv.NumErrorText Scripted.quote
                             (MoreSamples.syntaxError "x7") +:+ ")"))).
Proof.
  apply (BaseExpandFunc_outcomes Scripted.quote
           (Samples.policyState "x7" Samples.twoScopes) MinReviewerCount).
  vm_compute; reflexivity.
Defined.


Lemma create_then_read_consistent_witness :
  ∃ d1 : ResourceData,
    genPolicyCreateFunc Samples.baseCrudArgs
      (Samples.policyState "" Samples.twoScopes)
      (Scripted.clients (Some MoreSamples.remoteConfig, None) (None, None)) []
    = Returns (d1, ["CreatePolicyConfiguration"], None)
    ∧ Schema.Id d1 = Strconv.Itoa 42
    ∧ genPolicyReadFunc Scripted.quote Samples.baseCrudArgs d1
        (Scripted.clients (Some MoreSamples.remoteConfig, None) (None, None))
        ["CreatePolicyConfiguration"]
      = Returns (d1, ["CreatePolicyConfiguration"; "GetPolicyConfiguration"],
                 None).
Proof.
  apply (create_then_read_consistent Scripted.quote Samples.baseCrudArgs
           (Samples.policyState "" Samples.twoScopes)
           (Scripted.clients (Some MoreSamples.remoteConfig, None) (None, None))
           [] ["CreatePolicyConfiguration"]
           ["CreatePolicyConfiguration"; "GetPolicyConfiguration"]
           (Some (Samples.expandedConfig Samples.twoScopes)) "proj1"
           MoreSamples.remoteConfig 42).
  - reflexivity.
  - vm_compute; reflexivity.
  - vm_compute; reflexivity.
  - reflexivity.
  - unfold inIntRange. lia.
  - vm_compute; reflexivity.
Defined.

Lemma read_rejects_bad_id_witness :
  genPolicyReadFunc Scripted.quote Samples.baseCrudArgs
    (Samples.policyState "x7" Samples.twoScopes)
    (Scripted.clients (None, None) (None, None)) []
  = Returns (Samples.policyState "x7" Samples.twoScopes, [],
             Some (Fmt.Errorf ("Error converting policy ID to an integer: ("
                               +:+ Strconv.NumErrorText Scripted.quote
                                     (MoreSamples.syntaxError "x7") +:+ ")"))).
Proof.
  apply (read_rejects_bad_id Scripted.quote Samples.baseCrudArgs
           (Samples.policyState "x7" Samples.twoScopes)
           (Scripted.clients (None, None) (None, None)) [] "proj1" 0).
  - vm_compute; reflexivity.
  - vm_compute; reflexivity.
Defined.

Lemma expand_error_stops_operation_witness :
  let d := Samples.policyState "x7" Samples.twoScopes in
  let m := Scripted.clients (None, None) (None, None) in
  let e := Fmt.Errorf ("Error parsing policy configuration ID: ("
                       +:+ Strconv.NumErrorText Scripted.quote
                             (MoreSamples.syntaxError "x7") +:+ ")") in
  genPolicyCreateFunc Samples.baseCrudArgs d m [] = Returns (d, [], Some e)
  ∧ genPolicyUpdateFunc Samples.baseCrudArgs d m [] = Returns (d, [], Some e)
  ∧ genPolicyDeleteFunc Samples.baseCrudArgs d m [] = Returns (d, [], Some e).
Proof.
  apply (expand_error_stops_operation Samples.baseCrudArgs
           (Samples.policyState "x7" Samples.twoScopes)
           (Scripted.clients (None, None) (None, None)) [] None None).
  vm_compute; reflexivity.
Defined.


Lemma delete_outcomes_witness :
  genPolicyDeleteFunc Samples.baseCrudArgs
    (Samples.policyState "42" Samples.twoScopes)
    (Scripted.clients (None, None) (None, None)) []
  = Returns (Samples.policyState "42" Samples.twoScopes,
             ["DeletePolicyConfiguration"], None).
Proof.
  apply (delete_outcomes Samples.baseCrudArgs
           (Samples.policyState "42" Samples.twoScopes)
           (Scripted.clients (None, None) (None, None))
           [] ["DeletePolicyConfiguration"]
           (MoreSamples.expandedConfig42 Samples.twoScopes) (Some "proj1")
           None).
  - vm_compute; reflexivity.
  - vm_compute; reflexivity.
Defined.

Lemma read_after_import_witness :
  ∃ d1 : ResourceData,
    genPolicyImporter (Samples.importState "proj1/42")
    = (d1, (Some [d1], None))
    ∧ genPolicyReadFunc Scripted.quote Samples.baseCrudArgs d1
        (Scripted.clients (Some MoreSamples.remoteConfig, None) (None, None)) []
      = (d' ← FlattenFunc Samples.baseCrudArgs d1
                (Some MoreSamples.remoteConfig) (Some "proj1");
         Returns (d', ["GetPolicyConfiguration"], None)).
Proof.
  apply (read_after_import Scripted.quote Samples.baseCrudArgs
           (Samples.importState "proj1/42")
           (Scripted.clients (Some MoreSamples.remoteConfig, None) (None, None))
           [] ["GetPolicyConfiguration"] "proj1" "42" 42
           (Some MoreSamples.remoteConfig)).
  - reflexivity.
  - reflexivity.
  - discriminate.
  - discriminate.
  - vm_compute; reflexivity.
  - vm_compute; reflexivity.
Defined.

Lemma import_keeps_text_and_other_attributes_witness :
  let d := Samples.importState "proj1/42" in
  let d' := SetId "42" (Set_ SchemaProjectID (VString "proj1") d) in
  [d'] = [d']
  ∧ (∃ p, Get d' SchemaProjectID = VString p
          ∧ p +:+ "/" +:+ Schema.Id d' = Schema.Id d)
  ∧ ∀ k, k ≠ SchemaProjectID → Get d' k = Get d k.
Proof.
  apply (import_keeps_text_and_other_attributes
           (Samples.importState "proj1/42")
           (SetId "42" (Set_ SchemaProjectID (VString "proj1")
                          (Samples.importState "proj1/42")))
           [SetId "42" (Set_ SchemaProjectID (VString "proj1")
                          (Samples.importState "proj1/42"))]).
  vm_compute; reflexivity.
Defined.

Lemma agent_pool_expand_after_flatten_witness :
  ∃ d' : ResourceData,
    flattenAzureAgentPool (Samples.importState "") (Some MoreSamples.remotePool)
    = Returns d'
    ∧ expandAgentPool Scripted.quote d' false
      = Returns (Some {| Taskagent.Id := Some 7;
                         Taskagent.Name := Some "pool";
                         Taskagent.PoolType := Some "automation";
                         Taskagent.AutoProvision := Some false |},
                 None).
Proof.
  eexists. split; [vm_compute; reflexivity|].
  apply (agent_pool_expand_after_flatten Scripted.quote
           (Samples.importState "") _ MoreSamples.remotePool 7
           "automation" false).
  - unfold inIntRange. lia.
  - reflexivity.
  - reflexivity.
  - reflexivity.
  - vm_compute; reflexivity.
Defined.

Lemma agent_pool_expand_for_create_witness :
  expandAgentPool Scripted.quote (Samples.poolState "") true
  = Returns (Some {| Taskagent.Id :=
                       Some (Strconv.Atoi (Schema.Id (Samples.poolState ""))).1;
                     Taskagent.Name := Some "pool";
                     Taskagent.PoolType := Some "automation";
                     Taskagent.AutoProvision := Some false |},
             None)
  ∧ (Schema.Id (Samples.poolState "") = "" →
     (Strconv.Atoi (Schema.Id (Samples.poolState ""))).1 = 0).
Proof.
  apply (agent_pool_expand_for_create Scripted.quote (Samples.poolState "")
           "automation" "pool" false).
  - vm_compute; reflexivity.
  - vm_compute; reflexivity.
  - vm_compute; reflexivity.
Defined.

Lemma agent_pool_update_flow_witness :
  resourceAzureAgentPoolUpdate Scripted.quote (Samples.poolState "7")
    (Scripted.clients (None, None) (None, Some Scripted.unauthorized)) []
  = Returns (Samples.poolState "7", ["UpdateAgentPool"],
             Some (Fmt.Errorf ("Error updating agent pool in Azure DevOps: "
                               +:+ Error Scripted.unauthorized))).
Proof.
  apply (agent_pool_update_flow Scripted.quote (Samples.poolState "7")
           (Scripted.clients (None, None) (None, Some Scripted.unauthorized))
           [] ["UpdateAgentPool"] 7 "automation" "pool" false None
           (Some Scripted.unauthorized)).
  - vm_compute; reflexivity.
  - vm_compute; reflexivity.
  - vm_compute; reflexivity.
  - vm_compute; reflexivity.
  - vm_compute; reflexivity.
Defined.

Lemma agent_pool_create_then_read_witness :
  ∃ d1 : ResourceData,
    flattenAzureAgentPool (Samples.poolState "") (Some MoreSamples.remotePool)
    = Returns d1
    ∧ resourceAzureAgentPoolCreate Scripted.quote (Samples.poolState "")
        (Scripted.clients (None, None) (Some MoreSamples.remotePool, None)) []
      = Returns (d1, ["AddAgentPool"; "GetAgentPool"], None)
    ∧ Schema.Id d1 = Strconv.Itoa 7.
Proof.
  apply (agent_pool_create_then_read Scripted.quote (Samples.poolState "")
           (Scripted.clients (None, None) (Some MoreSamples.remotePool, None))
           [] ["AddAgentPool"] ["AddAgentPool"; "GetAgentPool"]
           "automation" "pool" false MoreSamples.remotePool 7).
  - vm_compute; reflexivity.
  - vm_compute; reflexivity.
  - vm_compute; reflexivity.
  - vm_compute; reflexivity.
  - reflexivity.
  - unfold inIntRange. lia.
  - vm_compute; reflexivity.
Defined.

Lemma agent_pool_create_failure_witness :
  resourceAzureAgentPoolCreate Scripted.quote (Samples.poolState "")
    (Scripted.clients (None, None) (None, Some Scripted.unauthorized)) []
  = Returns (Samples.poolState "", ["AddAgentPool"],
             Some (Fmt.Errorf ("Error creating agent pool in Azure DevOps: "
                               +:+ Error Scripted.unauthorized))).
Proof.
  apply (agent_pool_create_failure Scripted.quote (Samples.poolState "")
           (Scripted.clients (None, None) (None, Some Scripted.unauthorized))
           [] ["AddAgentPool"] "automation" "pool" false None
           Scripted.unauthorized).
  - vm_compute; reflexivity.
  - vm_compute; reflexivity.
  - vm_compute; reflexivity.
  - vm_compute; reflexivity.
Defined.

Lemma agent_pool_read_rejects_bad_id_witness :
  resourceAzureAgentPoolRead Scripted.quote (Samples.poolState "seven")
    (Scripted.clients (None, None) (None, None)) []
  = Returns (Samples.poolState "seven", [],
             Some (Fmt.Errorf ("Error getting agent pool Id: "
                               +:+ Strconv.NumErrorText Scripted.quote
                                     (MoreSamples.syntaxError "seven")))).
Proof.
  apply (agent_pool_read_rejects_bad_id Scripted.quote
           (Samples.poolState "seven")
           (Scripted.clients (None, None) (None, None)) [] 0).
  vm_compute; reflexivity.
Defined.

Lemma agent_pool_read_stores_pool_witness :
  ∃ d' : ResourceData,
    resourceAzureAgentPoolRead Scripted.quote (Samples.poolState "7")
      (Scripted.clients (None, None) (Some MoreSamples.remotePool, None)) []
    = Returns (d', ["GetAgentPool"], None)
    ∧ Schema.Id d' = Strconv.Itoa 7
    ∧ Get d' "name" = VString "pool"
    ∧ ∀ k, k ≠ "name" → k ≠ "pool_type" → k ≠ "auto_provision" →
           Get d' k = Get (Samples.poolState "7") k.
Proof.
  apply (agent_pool_read_stores_pool Scripted.quote (Samples.poolState "7")
           (Scripted.clients (None, None) (Some MoreSamples.remotePool, None))
           [] ["GetAgentPool"] 7 7 MoreSamples.remotePool).
  - vm_compute; reflexivity.
  - vm_compute; reflexivity.
  - reflexivity.
Defined.

Lemma agent_pool_error_leaves_store_witness :
  resourceAzureAgentPoolRead Scripted.quote (Samples.poolState "7")
    (Scripted.clients (None, None) (None, Some Scripted.unauthorized)) []
  = Returns (Samples.poolState "7", ["GetAgentPool"],
             Some (Fmt.Errorf ("Error looking up agent pool with ID "
                               +:+ Strconv.Itoa 7 +:+ ". Error: "
                               +:+ Error Scripted.unauthorized)))
  ∧ Samples.poolState "7" = Samples.poolState "7".
Proof.
  split; [vm_compute; reflexivity|].
  apply (proj1
           (agent_pool_error_leaves_store Scripted.quote
              (Samples.poolState "7") (Samples.poolState "7")
              (Scripted.clients (None, None) (None, Some Scripted.unauthorized))
              [] ["GetAgentPool"]
              (Fmt.Errorf ("Error looking up agent pool with ID "
                           +:+ Strconv.Itoa 7 +:+ ". Error: "
                           +:+ Error Scripted.unauthorized)))).
  vm_compute; reflexivity.
Defined.

Lemma agent_pool_create_readback_failure_witness :
  ∃ d1 : ResourceData,
    flattenAzureAgentPool (Samples.poolState "") (Some MoreSamples.remotePool)
    = Returns d1
    ∧ resourceAzureAgentPoolCreate Scripted.quote (Samples.poolState "")
        MoreSamples.addThenLose []
      = Returns (d1, ["AddAgentPool"; "GetAgentPool"],
                 Some (Fmt.Errorf ("Error looking up agent pool with ID "
                                   +:+ Strconv.Itoa 7 +:+ ". Error: "
                                   +:+ Error Scripted.notFound)))
    ∧ Schema.Id d1 = Strconv.Itoa 7.
Proof.
  apply (agent_pool_create_readback_failure Scripted.quote
           (Samples.poolState "") MoreSamples.addThenLose
           [] ["AddAgentPool"] ["AddAgentPool"; "GetAgentPool"]
           "automation" "pool" false MoreSamples.remotePool 7 None
           Scripted.notFound).
  - vm_compute; reflexivity.
  - vm_compute; reflexivity.
  - vm_compute; reflexivity.
  - vm_compute; reflexivity.
  - reflexivity.
  - unfold inIntRange. lia.
  - vm_compute; reflexivity.
Defined.

End MoreRuns.
